(** * Checkout and settlement of ticket purchases

    A shallow embedding of [attendee_checkout.py]: the quote page
    ([start]), the completion callback ([complete]), tier availability,
    the sales window and the payout lookup, over an explicit model of the
    MongoDB collections the module reads and writes.

    Around it, from [public.py]: the buy form ([buy_tickets]) that
    forwards to [start], the tier part of the event page
    ([event_profile]) and the page window of the event list; and the
    filter by which the attendee pages read what [complete] wrote.

    Conventions.
    - Python [int] is [Z]; Python [float] is Rocq's binary64 [float], so
      that products, differences and comparisons of amounts are the IEEE
      operations the interpreter performs.
    - [str] is [string] (one character per byte; non-ASCII white space
      and strings that cannot be encoded as UTF-8 are not modelled).
    - A document field that may be missing or [None] is an [option].
    - A call that may raise returns an [option], [None] standing for the
      exception; where no handler catches it the request ends in
      HTTP 500.
    - The database is reachable and a document stays below the size
      MongoDB accepts (16 MiB); an insert fails only when the driver
      cannot encode the document.
    - A request body is read through a typed view: a field holds the
      value the handler obtains after its own [int(...)], [float(...)] or
      [str(...)] conversion. *)

From Stdlib Require Import ZArith String Ascii List Bool Lia.
From Stdlib Require Import PrimFloat FloatOps SpecFloat Uint63.
From Stdlib Require Import DecimalString.
From stdpp Require Import gmap strings list option.

Set Warnings "-inexact-float".
Local Open Scope string_scope.
Local Open Scope list_scope.
Local Open Scope Z_scope.

(** ** Strings *)

(** White space removed by [str.strip()]: blank, tab, line feed, vertical
    tab, form feed, carriage return and the four separators 28..31. *)
Definition is_space (a : ascii) : bool :=
  let n := nat_of_ascii a in
  ((n =? 32) || ((9 <=? n) && (n <=? 13)) || ((28 <=? n) && (n <=? 31)))%nat.

Fixpoint lstrip (s : string) : string :=
  match s with
  | EmptyString => EmptyString
  | String a s' => if is_space a then lstrip s' else s
  end.

Fixpoint rstrip (s : string) : string :=
  match s with
  | EmptyString => EmptyString
  | String a s' =>
      match rstrip s' with
      | EmptyString => if is_space a then EmptyString else String a EmptyString
      | r => String a r
      end
  end.

Definition strip (s : string) : string := rstrip (lstrip s).

(** Python truth value of a string. *)
Definition nonempty (s : string) : bool :=
  match s with EmptyString => false | _ => true end.

(** [x or None] on a string. *)
Definition or_none (s : string) : option string :=
  if nonempty s then Some s else None.

(** [(x or "")] on an optional string. *)
Definition or_empty (o : option string) : string := default "" o.

Definition is_hex (a : ascii) : bool :=
  let n := nat_of_ascii a in
  (((48 <=? n) && (n <=? 57)) || ((97 <=? n) && (n <=? 102))
   || ((65 <=? n) && (n <=? 70)))%nat.

Fixpoint all_hex (s : string) : bool :=
  match s with
  | EmptyString => true
  | String a s' => is_hex a && all_hex s'
  end.

Definition lower_hex (a : ascii) : ascii :=
  let n := nat_of_ascii a in
  if ((65 <=? n) && (n <=? 70))%nat then ascii_of_nat (n + 32) else a.

(** ** ObjectId

    An [ObjectId] is represented by what [str()] prints for it: the
    bytes it holds, as lower-case hexadecimal digits.  [ObjectId(s)]
    takes a string of 24 characters and reads it with [bytes.fromhex];
    the ids MongoDB generates hold 12 bytes and print as 24 digits. *)
Abbreviation ObjectId := string (only parsing).

Definition oid_str (o : ObjectId) : string := o.

(** White space that [bytes.fromhex] skips between two bytes. *)
Definition is_hex_space (a : ascii) : bool :=
  let n := nat_of_ascii a in
  ((n =? 32) || ((9 <=? n) && (n <=? 13)))%nat.

(** [bytes.fromhex(s)], the bytes printed in hexadecimal: pairs of
    hexadecimal digits, with white space allowed between pairs; [None]
    stands for [ValueError]. *)
Fixpoint fromhex (s : string) : option string :=
  match s with
  | EmptyString => Some EmptyString
  | String a s' =>
      if is_hex_space a then fromhex s'
      else
        match s' with
        | String b s'' =>
            if is_hex a && is_hex b
            then option_map
                   (fun r => String (lower_hex a) (String (lower_hex b) r))
                   (fromhex s'')
            else None
        | EmptyString => None
        end
  end.

Definition _to_oid (maybe_id : string) : option ObjectId :=
  if (String.length maybe_id =? 24)%nat then fromhex maybe_id else None.

(** ** Amounts

    [round(x, 6)] on a float: the decimal with six places nearest to the
    exact binary value of [x] (ties to even), converted back to the
    nearest float.  From 2^33 upwards the spacing of floats exceeds 1e-6
    and the value is returned as it is; so are infinities and NaN. *)
Definition USDC_DECIMALS : Z := 6.

Definition round_half_even (num den : Z) : Z :=
  let q := num / den in
  match 2 * (num mod den) ?= den with
  | Lt => q
  | Gt => q + 1
  | Eq => if Z.even q then q else q + 1
  end.

Definition round6 (x : float) : float :=
  match Prim2SF x with
  | S754_finite s m e =>
      if (0x1p33 <=? abs x)%float then x
      else
        let n := round_half_even (Zpos m * 10 ^ USDC_DECIMALS) (2 ^ (- e)) in
        let r := (of_uint63 (Uint63.of_Z n) / 1000000)%float in
        if s then (- r)%float else r
  | _ => x
  end.

(** Conversion of a Python [int] operand of a float product; [None]
    stands for [OverflowError]. *)
Definition int_to_float (z : Z) : option float :=
  let f := SF2Prim (binary_normalize prec emax z 0 false) in
  if is_infinity f then None else Some f.

(** [x or 0.0] on a float: zero of either sign is false, NaN is true. *)
Definition or_zero (x : float) : float :=
  if (x =? 0)%float then 0%float else x.

(** [round(price * qty, USDC_DECIMALS)]. *)
Definition total_amount (price : float) (qty : Z) : option float :=
  match int_to_float qty with
  | Some q => Some (round6 (price * q)%float)
  | None => None
  end.

(** ** Dates and the sales window *)

(** A point in time, in UTC: calendar date and microseconds since
    midnight.  Aware datetimes are kept in UTC and naive ones are read as
    UTC, which is what the handlers do before comparing. *)
Record datetime := {
  dt_year : Z;
  dt_month : Z;
  dt_day : Z;
  dt_usec : Z
}.

Definition dt_ltb (a b : datetime) : bool :=
  (dt_year a <? dt_year b)
  || ((dt_year a =? dt_year b)
      && ((dt_month a <? dt_month b)
          || ((dt_month a =? dt_month b)
              && ((dt_day a <? dt_day b)
                  || ((dt_day a =? dt_day b) && (dt_usec a <? dt_usec b)))))).

Definition is_leap (y : Z) : bool :=
  (y mod 4 =? 0) && (negb (y mod 100 =? 0) || (y mod 400 =? 0)).

Definition days_in_month (y m : Z) : Z :=
  if m =? 2 then (if is_leap y then 29 else 28)
  else if (m =? 4) || (m =? 6) || (m =? 9) || (m =? 11) then 30
  else 31.

(** [datetime(y, m, d, ...)] with a valid time of day; [None] stands for
    [ValueError]. *)
Definition make_datetime (y m d usec : Z) : option datetime :=
  if (1 <=? y) && (y <=? 9999) && (1 <=? m) && (m <=? 12)
     && (1 <=? d) && (d <=? days_in_month y m)
  then Some {| dt_year := y; dt_month := m; dt_day := d; dt_usec := usec |}
  else None.

(** 23:59:59.999000 *)
Definition end_of_day : Z := ((23 * 60 + 59) * 60 + 59) * 1000000 + 999000.

(** What [datetime.fromisoformat] makes of a string. *)
Inductive iso_string :=
| IsoInvalid                    (* it raises [ValueError] *)
| IsoAt (d : datetime)          (* a datetime that, in UTC, is [d] *)
| IsoOutOfRange.                (* a datetime with an offset whose UTC
                                   form lies outside the years 1..9999 *)

(** What a tier stores under [sales_start] or [sales_end].  The client
    is created without [tz_aware], so a stored datetime is naive. *)
Inductive bound_val :=
| BMissing                              (* absent, [None] or [""] *)
| BDatetime (d : datetime)              (* a datetime *)
| BDay (ymd : option (Z * Z * Z))       (* a string shaped YYYY-MM-DD: its
                                           three parts as ints, [None] when
                                           they do not convert *)
| BIso (s : iso_string)                 (* another string *)
| BOther.                               (* any other true value *)

Inductive bound_kind := KStart | KEnd.

(** [_parse_sales_bound(val, kind)]: the datetime or [None] it returns.
    The conversion to UTC in its last line is outside every [try]:
    [astimezone] raises [OverflowError] when the result is out of range,
    and then the call gives [None] here. *)
Definition _parse_sales_bound (val : bound_val) (kind : bound_kind)
  : option (option datetime) :=
  match val with
  | BMissing => Some None
  | BDatetime d => Some (Some d)
  | BDay (Some (y, m, d)) =>
      match kind with
      | KEnd => Some (make_datetime y m d end_of_day)
      | KStart => Some (make_datetime y m d 0)
      end
  | BDay None => Some None
  | BIso IsoInvalid => Some None
  | BIso (IsoAt d) => Some (Some d)
  | BIso IsoOutOfRange => None
  | BOther => Some None
  end.

(** ** Documents *)

(** A ticket tier of an event (fields shown on pages only are left out). *)
Record tier := {
  t_price : float;
  t_supply : Z;
  t_per_order_limit : Z;
  t_sales_start : bound_val;
  t_sales_end : bound_val
}.

Record event := {
  ev_status : string;
  ev_tiers : list tier;
  ev_organizer_id : option string;
  ev_organizer_user_id : option string;
  ev_organizer : option string;
  ev_payout_address : option string;
  ev_organizer_payout_address : option string;
  ev_treasury_address : option string;
  ev_usdc_payout : option string;
  ev_wallet_address : option string
}.

(** The payout fields of an organizer or user document; the nested
    [billing.payout_address] and [settings.payout_address] are flattened. *)
Record account := {
  acc_payout_address : option string;
  acc_wallet_address : option string;
  acc_treasury_wallet : option string;
  acc_usdc_wallet : option string;
  acc_billing_payout_address : option string;
  acc_settings_payout_address : option string
}.

Record payment := {
  pay_id : ObjectId;
  pay_attendee_id : string;
  pay_organizer_id : option string;
  pay_event_id : string;
  pay_tier_index : Z;
  pay_quantity : Z;
  pay_unit_price : float;
  pay_amount : float;
  pay_currency : string;
  pay_status : string;
  pay_method : string;
  pay_tx_hash : option string;
  pay_payer : string;
  pay_pay_to : string;
  pay_chain_id : Z;
  pay_base_payment_id : option string;
  pay_base_status : option string;
  pay_base_status_raw : option string;
  pay_created_at : datetime
}.

Record transaction := {
  tx_kind : string;
  tx_attendee_id : string;
  tx_organizer_id : option string;
  tx_event_id : string;
  tx_tier_index : Z;
  tx_quantity : Z;
  tx_amount : float;
  tx_currency : string;
  tx_to : string;
  tx_from : option string;
  tx_tx_hash : option string;
  tx_base_payment_id : option string;
  tx_base_status : option string;
  tx_chain_id : Z;
  tx_created_at : datetime;
  tx_payment_id : string
}.

Record ticket := {
  tk_event_id : string;
  tk_tier_index : Z;
  tk_attendee_id : string;
  tk_price : float;
  tk_purchased_at : datetime;
  tk_payment_id : string;
  tk_status : string
}.

(** ** The database

    [events] is keyed by [_id], which MongoDB keeps unique.  A collection
    that [list_collection_names()] may or may not report is an [option];
    inserting into a collection creates it. *)
Record DB := {
  events : gmap string event;
  organizers : option (gmap string account);
  users : option (gmap string account);
  payments : list payment;
  transactions : list transaction;
  tickets : option (list ticket)
}.

Definition ticket_rows (db : DB) : list ticket := default [] (tickets db).

(** [db.events.find_one({"_id": oid, "status": "published"})] *)
Definition find_published (db : DB) (oid : ObjectId) : option event :=
  match events db !! oid with
  | Some ev => if String.eqb (ev_status ev) "published" then Some ev else None
  | None => None
  end.

Definition count_documents {A : Type} (q : A -> bool) (rows : list A) : Z :=
  Z.of_nat (length (List.filter q rows)).

Definition ticket_query (event_id : string) (tier_index : Z) (t : ticket)
  : bool :=
  String.eqb (tk_event_id t) event_id && (tk_tier_index t =? tier_index).

(** ** Helpers (datetime/availability) *)

(** [_tier_sales_open(tier, now_utc)]; [None] when parsing a bound
    raises. *)
Definition _tier_sales_open (t : tier) (now_utc : datetime) : option bool :=
  match _parse_sales_bound (t_sales_start t) KStart with
  | None => None
  | Some s =>
      match _parse_sales_bound (t_sales_end t) KEnd with
      | None => None
      | Some e =>
          Some (if match s with Some s' => dt_ltb now_utc s' | None => false end
                then false
                else if match e with
                        | Some e' => dt_ltb e' now_utc
                        | None => false
                        end
                then false
                else true)
      end
  end.

Record availability := {
  supply : Z;
  sold : Z;
  available : Z
}.

Definition _tier_availability (db : DB) (event_id_str : string) (tier_idx : Z)
    (t : tier) : availability :=
  let supply := t_supply t in
  let sold :=
    match tickets db with
    | Some rows => count_documents (ticket_query event_id_str tier_idx) rows
    | None => 0
    end in
  let available := if supply =? 0 then 0 else Z.max 0 (supply - sold) in
  {| supply := supply; sold := sold; available := available |}.

(** ** Payout helpers (event -> organizers -> users -> default) *)

Definition DEFAULT_PAYOUT_ADDRESS : string :=
  "0x98f869c3d188740ef666bbd97436f89c929826f7".

Definition addr_shape (a : string) : bool :=
  String.prefix "0x" a && (String.length a =? 42)%nat.

Definition _norm_addr (addr : option string) : string :=
  let a := strip (or_empty addr) in
  if addr_shape a then a else "".

Fixpoint _pick (vals : list (option string)) : string :=
  match vals with
  | [] => ""
  | Some v :: rest => if nonempty (strip v) then strip v else _pick rest
  | None :: rest => _pick rest
  end.

(** [a or b] on optional strings. *)
Definition py_or (a b : option string) : option string :=
  match a with
  | Some s => if nonempty s then a else b
  | None => b
  end.

(** [_to_oid] on a field that may be [None]: [str(None)] is ["None"]. *)
Definition _to_oid_field (maybe_id : option string) : option ObjectId :=
  _to_oid (default "None" maybe_id).

(** [find_one(...) or {}] *)
Definition no_account : account :=
  {| acc_payout_address := None; acc_wallet_address := None;
     acc_treasury_wallet := None; acc_usdc_wallet := None;
     acc_billing_payout_address := None;
     acc_settings_payout_address := None |}.

(** The loop [for k in (...): cand = _norm_addr(doc.get(k)); if cand: return cand]. *)
Fixpoint first_norm (vals : list (option string)) : string :=
  match vals with
  | [] => ""
  | v :: rest =>
      let cand := _norm_addr v in
      if nonempty cand then cand else first_norm rest
  end.

(** The lookups made on an organizer document and, in the same order, on
    a user document; [""] when none gives an address. *)
Definition account_payout (doc : account) : string :=
  let cand := first_norm [acc_payout_address doc; acc_wallet_address doc;
                          acc_treasury_wallet doc; acc_usdc_wallet doc] in
  if nonempty cand then cand
  else
    let cand := _norm_addr (acc_billing_payout_address doc) in
    if nonempty cand then cand
    else _norm_addr (acc_settings_payout_address doc).

Definition collection_payout (oid : option ObjectId)
    (coll : option (gmap string account)) : string :=
  match oid, coll with
  | Some o, Some docs => account_payout (default no_account (docs !! o))
  | _, _ => ""
  end.

Definition _find_payout_address (db : DB) (ev : event) : string :=
  (* 1) Event-level fields *)
  let cand := _pick [ev_payout_address ev; ev_organizer_payout_address ev;
                     ev_treasury_address ev; ev_usdc_payout ev;
                     ev_wallet_address ev] in
  if nonempty (_norm_addr (Some cand)) then cand
  else
    let org_id := py_or (py_or (ev_organizer_id ev) (ev_organizer_user_id ev))
                        (ev_organizer ev) in
    let oid := _to_oid_field org_id in
    (* 2) organizers collection (if present) *)
    let cand := collection_payout oid (organizers db) in
    if nonempty cand then cand
    else
      (* 3) users collection *)
      let cand := collection_payout oid (users db) in
      if nonempty cand then cand
      else
        (* 4) Hardcoded fallback *)
        _norm_addr (Some DEFAULT_PAYOUT_ADDRESS).

(** ** Early return *)

Definition bind {R A B : Type} (m : R + A) (k : A -> R + B) : R + B :=
  match m with
  | inl r => inl r
  | inr a => k a
  end.

Notation "x <- m ;; k" := (bind m (fun x => k))
  (at level 100, m at next level, right associativity).

(** Go on when [c] holds, return [r] otherwise. *)
Definition require {R : Type} (c : bool) (r : R) : R + unit :=
  if c then inr tt else inl r.

Definition some_or {R A : Type} (o : option A) (r : R) : R + A :=
  match o with
  | Some a => inr a
  | None => inl r
  end.

Definition returned {R : Type} (m : R + R) : R :=
  match m with
  | inl r => r
  | inr r => r
  end.

(** ** Network configuration *)

Record network := {
  chain_id : Z;
  chain_id_hex : string;
  chain_name : string;
  usdc : string
}.

Definition ACTIVE_NETWORK : string := "mainnet".

Definition NETS (name : string) : option network :=
  if String.eqb name "mainnet" then
    Some {| chain_id := 8453; chain_id_hex := "0x2105"; chain_name := "Base";
            usdc := "0x833589fCD6eDb6E08f4c7C32D4f71b54bdA02913" |}
  else if String.eqb name "sepolia" then
    Some {| chain_id := 84532; chain_id_hex := "0x14A34";
            chain_name := "Base Sepolia";
            usdc := "0x0000000000000000000000000000000000000000" |}
  else None.

(** ** Routes: the quote page *)

(** Query string of [/checkout/start]: [a_tier_idx] and [a_quantity] hold
    [int(arg or -1)] and [int(arg or 0)], [None] when [int] raises. *)
Record start_args := {
  a_event_id : string;
  a_tier_idx : option Z;
  a_quantity : option Z
}.

(** What [start] stashes in the session under [checkout_current]. *)
Record quote := {
  q_event_id : string;
  q_tier_idx : Z;
  q_quantity : Z;
  q_unit_price : float;
  q_amount : float;
  q_max_allowed : Z;
  q_payout : string;
  q_chain_id : Z;
  q_usdc : string
}.

Inductive page :=
| Redirect (endpoint : string) (flash : string)
| Abort (code : Z)
| Checkout (q : quote)
| Uncaught500.                       (* an exception nobody catches *)

Definition in_bounds (tier_idx : Z) (tiers : list tier) : bool :=
  negb ((tier_idx <? 0) || (Z.of_nat (length tiers) <=? tier_idx)).

(** [qty = qty_req or 1], then the two bounds, in the order of the code. *)
Definition clamp_quantity (qty_req max_allowed : Z) : Z :=
  let qty := if qty_req =? 0 then 1 else qty_req in
  let qty := if max_allowed <? qty then max_allowed else qty in
  if qty <? 1 then 1 else qty.

Definition start (uid : option string) (args : start_args) (now : datetime)
    (db : DB) : page :=
  returned (
    _ <- some_or uid (Redirect "login.login" "Please log in to continue.") ;;
    let event_id := a_event_id args in
    tier_idx <- some_or (a_tier_idx args)
                  (Redirect "public.browse_events" "Invalid selection.") ;;
    qty_req <- some_or (a_quantity args)
                 (Redirect "public.browse_events" "Invalid selection.") ;;
    oid <- some_or (_to_oid event_id) (Abort 404) ;;
    ev <- some_or (find_published db oid) (Abort 404) ;;
    let tiers := ev_tiers ev in
    _ <- require (in_bounds tier_idx tiers)
           (Redirect "public.event_profile"
              "Please select a valid ticket tier.") ;;
    tier <- some_or (tiers !! Z.to_nat tier_idx) Uncaught500 ;;
    on_sale <- some_or (_tier_sales_open tier now) Uncaught500 ;;
    _ <- require on_sale
           (Redirect "public.event_profile"
              "Sales window closed for this tier.") ;;
    let avail := _tier_availability db (oid_str oid) tier_idx tier in
    _ <- require (negb (available avail <=? 0))
           (Redirect "public.event_profile" "This tier is sold out.") ;;
    let per_order_limit := t_per_order_limit tier in
    let max_allowed :=
      if 0 <? per_order_limit then per_order_limit else available avail in
    let qty := clamp_quantity qty_req max_allowed in
    let price := or_zero (t_price tier) in
    amount <- some_or (total_amount price qty) Uncaught500 ;;
    let payout := _find_payout_address db ev in
    _ <- require (nonempty payout)
           (Redirect "public.event_profile"
              "Organizer payout wallet not configured. Add a 0x… address on the event or organizer user.") ;;
    net <- some_or (NETS ACTIVE_NETWORK) Uncaught500 ;;
    inr (Checkout {| q_event_id := event_id; q_tier_idx := tier_idx;
                     q_quantity := qty; q_unit_price := price;
                     q_amount := amount; q_max_allowed := max_allowed;
                     q_payout := payout; q_chain_id := chain_id net;
                     q_usdc := usdc net |})).

(** ** Routes: the completion callback *)

(** JSON body of [/checkout/complete].  [amountUSDC] holds
    [float(str(data.get("amountUSDC") or "0"))], [None] when [float]
    raises; absent strings are [""], absent ints their defaults. *)
Record claim := {
  eventId : string;
  tierIdx : Z;
  quantity : Z;
  from_ : string;
  to_ : string;
  chainId : Z;
  amountUSDC : option float;
  basePaymentId : string;
  baseStatus : string;
  baseStatusRaw : option string;
  txHash : string
}.

Inductive response :=
| Err (error : string) (code : Z)
| Okay (payment_id : string) (base_payment_id : option string)
       (redirect_event : string)
| Uncaught.                          (* an exception nobody catches *)

(** The locals of [complete] once every check has passed. *)
Record order := {
  o_uid : string;
  o_organizer_id : option string;
  o_event_id : string;
  o_tier_idx : Z;
  o_qty : Z;
  o_price : float;
  o_expected_amount : float;
  o_payer : string;
  o_paid_to : string;
  o_chain_id : Z;
  o_base_payment_id : string;
  o_base_status : string;
  o_base_status_raw : option string;
  o_tx_hash : string
}.

(** [expected_amount > 0 and abs(paid_amount - expected_amount) > 1e-6] *)
Definition amount_mismatch (paid_amount expected_amount : float) : bool :=
  ((0 <? expected_amount) && (1e-6 <? abs (paid_amount - expected_amount)))%float.

(** [round(float(amount_u), 6)], or -1 when the conversion raises. *)
Definition paid_amount_of (amount_u : option float) : float :=
  match amount_u with
  | Some a => round6 a
  | None => (-1)%float
  end.

(** [event_id and qty > 0 and chain_id and paid_to] *)
Definition payload_ok (data : claim) : bool :=
  nonempty (eventId data) && (0 <? quantity data)
  && negb (chainId data =? 0) && nonempty (strip (to_ data)).

Definition make_order (uid : string) (oid : ObjectId) (ev : event)
    (price expected_amount : float) (data : claim) : order :=
  {| o_uid := uid; o_organizer_id := ev_organizer_id ev;
     o_event_id := oid_str oid; o_tier_idx := tierIdx data;
     o_qty := quantity data; o_price := price;
     o_expected_amount := expected_amount;
     o_payer := strip (from_ data); o_paid_to := strip (to_ data);
     o_chain_id := chainId data;
     o_base_payment_id := strip (basePaymentId data);
     o_base_status := strip (baseStatus data);
     o_base_status_raw := baseStatusRaw data;
     o_tx_hash := strip (txHash data) |}.

(** The part of [complete] before the first insert. *)
Definition checks (uid : option string) (data : claim) (db : DB)
  : response + order :=
  uid <- some_or uid (Err "not_logged_in" 401) ;;
  let tier_idx := tierIdx data in
  let qty := quantity data in
  _ <- require (payload_ok data) (Err "invalid_payload" 400) ;;
  oid <- some_or (_to_oid (eventId data)) (Err "bad_event" 400) ;;
  ev <- some_or (find_published db oid) (Err "not_found" 404) ;;
  let tiers := ev_tiers ev in
  _ <- require (in_bounds tier_idx tiers) (Err "bad_tier" 400) ;;
  tier <- some_or (tiers !! Z.to_nat tier_idx) Uncaught ;;
  let avail := _tier_availability db (oid_str oid) tier_idx tier in
  _ <- require (negb (available avail <? qty)) (Err "sold_out" 409) ;;
  let price := or_zero (t_price tier) in
  expected_amount <- some_or (total_amount price qty) Uncaught ;;
  let paid_amount := paid_amount_of (amountUSDC data) in
  _ <- require (negb (amount_mismatch paid_amount expected_amount))
         (Err "amount_mismatch" 400) ;;
  inr (make_order uid oid ev price expected_amount data).

Definition pay_doc (o : order) (now_dt : datetime) (inserted_id : ObjectId)
  : payment :=
  {| pay_id := inserted_id;
     pay_attendee_id := o_uid o;
     pay_organizer_id := o_organizer_id o;
     pay_event_id := o_event_id o;
     pay_tier_index := o_tier_idx o;
     pay_quantity := o_qty o;
     pay_unit_price := o_price o;
     pay_amount := o_expected_amount o;
     pay_currency := "USDC";
     pay_status :=
       if nonempty (o_base_status o) then "paid" else "onchain_confirmed";
     pay_method := "base_pay";
     pay_tx_hash := or_none (o_tx_hash o);
     pay_payer := o_payer o;
     pay_pay_to := o_paid_to o;
     pay_chain_id := o_chain_id o;
     pay_base_payment_id := or_none (o_base_payment_id o);
     pay_base_status := or_none (o_base_status o);
     pay_base_status_raw :=
       match o_base_status_raw o with
       | Some raw => or_none raw
       | None => None
       end;
     pay_created_at := now_dt |}.

Definition tx_doc (o : order) (now_dt : datetime) (payment_id : string)
  : transaction :=
  {| tx_kind := "ticket_purchase";
     tx_attendee_id := o_uid o;
     tx_organizer_id := o_organizer_id o;
     tx_event_id := o_event_id o;
     tx_tier_index := o_tier_idx o;
     tx_quantity := o_qty o;
     tx_amount := o_expected_amount o;
     tx_currency := "USDC";
     tx_to := o_paid_to o;
     tx_from := or_none (o_payer o);
     tx_tx_hash := or_none (o_tx_hash o);
     tx_base_payment_id := or_none (o_base_payment_id o);
     tx_base_status := or_none (o_base_status o);
     tx_chain_id := o_chain_id o;
     tx_created_at := now_dt;
     tx_payment_id := payment_id |}.

Definition ticket_doc (o : order) (now_dt : datetime) (payment_id : string)
  : ticket :=
  {| tk_event_id := o_event_id o;
     tk_tier_index := o_tier_idx o;
     tk_attendee_id := o_uid o;
     tk_price := o_price o;
     tk_purchased_at := now_dt;
     tk_payment_id := payment_id;
     tk_status := "valid" |}.

(** One [insert_one]. *)
Inductive write :=
| InsPayment (p : payment)
| InsTransaction (t : transaction)
| InsTicket (t : ticket).

(** An int that BSON can hold: eight bytes, signed. *)
Definition bson_int (z : Z) : bool := (- 2 ^ 63 <=? z) && (z <? 2 ^ 63).

(** Whether the driver can encode the document: every int in it must fit
    ([OverflowError] otherwise).  Floats, strings of the kind modelled
    here, datetimes and [None] always encode. *)
Definition encodes (w : write) : bool :=
  match w with
  | InsPayment p =>
      bson_int (pay_tier_index p) && bson_int (pay_quantity p)
      && bson_int (pay_chain_id p)
  | InsTransaction t =>
      bson_int (tx_tier_index t) && bson_int (tx_quantity t)
      && bson_int (tx_chain_id t)
  | InsTicket t => bson_int (tk_tier_index t)
  end.

(** The database after an insert that went through. *)
Definition inserted (db : DB) (w : write) : DB :=
  match w with
  | InsPayment p =>
      {| events := events db; organizers := organizers db; users := users db;
         payments := payments db ++ [p];
         transactions := transactions db; tickets := tickets db |}
  | InsTransaction t =>
      {| events := events db; organizers := organizers db; users := users db;
         payments := payments db;
         transactions := transactions db ++ [t]; tickets := tickets db |}
  | InsTicket t =>
      {| events := events db; organizers := organizers db; users := users db;
         payments := payments db; transactions := transactions db;
         tickets := Some (ticket_rows db ++ [t]) |}
  end.

(** [insert_one]: [None] when the document does not encode; nothing is
    written then. *)
Definition apply_write (db : DB) (w : write) : option DB :=
  if encodes w then Some (inserted db w) else None.

(** Inserts in program order.  The first that raises ends the request:
    what was inserted before stays, and [false] reports the exception. *)
Fixpoint run_writes (ws : list write) (db : DB) : DB * bool :=
  match ws with
  | [] => (db, true)
  | w :: rest =>
      match apply_write db w with
      | Some db' => run_writes rest db'
      | None => (db, false)
      end
  end.

(** The inserts of [complete], in program order.  [inserted_id] is the
    [_id] the driver gives the payment document. *)
Definition settle_writes (o : order) (now_dt : datetime)
    (inserted_id : ObjectId) : list write :=
  let payment_id := oid_str inserted_id in
  InsPayment (pay_doc o now_dt inserted_id)
  :: InsTransaction (tx_doc o now_dt payment_id)
  :: repeat (InsTicket (ticket_doc o now_dt payment_id)) (Z.to_nat (o_qty o)).

(** The database once all the inserts of an order are done. *)
Definition settled (db : DB) (o : order) (now_dt : datetime)
    (inserted_id : ObjectId) : DB :=
  {| events := events db; organizers := organizers db; users := users db;
     payments := payments db ++ [pay_doc o now_dt inserted_id];
     transactions :=
       transactions db ++ [tx_doc o now_dt (oid_str inserted_id)];
     tickets :=
       Some (ticket_rows db
             ++ repeat (ticket_doc o now_dt (oid_str inserted_id))
                       (Z.to_nat (o_qty o))) |}.

Definition success (o : order) (inserted_id : ObjectId) : response :=
  Okay (oid_str inserted_id) (or_none (o_base_payment_id o)) (o_event_id o).

Definition complete (uid : option string) (data : claim) (now_dt : datetime)
    (inserted_id : ObjectId) (db : DB) : DB * response :=
  match checks uid data db with
  | inl r => (db, r)
  | inr o =>
      let (db', done) := run_writes (settle_writes o now_dt inserted_id) db in
      (db', if done then success o inserted_id else Uncaught)
  end.

(** ** Requests served side by side

    Each database call is one step; the reads that [complete] makes
    before its first insert are taken together as one step. *)
Inductive request_state :=
| Received (uid : option string) (data : claim) (now_dt : datetime)
           (inserted_id : ObjectId)
| Writing (todo : list write) (r : response)
| Replied (r : response).

Definition request_step (st : request_state) (db : DB)
  : option (request_state * DB) :=
  match st with
  | Received uid data now_dt inserted_id =>
      match checks uid data db with
      | inl r => Some (Replied r, db)
      | inr o =>
          Some (Writing (settle_writes o now_dt inserted_id)
                        (success o inserted_id), db)
      end
  | Writing (w :: todo) r =>
      match apply_write db w with
      | Some db' => Some (Writing todo r, db')
      | None => Some (Replied Uncaught, db)
      end
  | Writing [] r => Some (Replied r, db)
  | Replied _ => None
  end.

(** The server lets request number [i] take its next step. *)
Definition server_step (cfg : list request_state * DB) (i : nat)
  : list request_state * DB :=
  let (reqs, db) := cfg in
  match reqs !! i with
  | Some st =>
      match request_step st db with
      | Some (st', db') => (<[i := st']> reqs, db')
      | None => cfg
      end
  | None => cfg
  end.

Definition serve (schedule : list nat) (cfg : list request_state * DB)
  : list request_state * DB :=
  fold_left server_step schedule cfg.

(** Requests served one after the other. *)
Fixpoint serve_in_turn (reqs : list (option string * claim * datetime * string))
    (db : DB) : DB * list response :=
  match reqs with
  | [] => (db, [])
  | (uid, data, now_dt, inserted_id) :: rest =>
      let (db1, r) := complete uid data now_dt inserted_id db in
      let (db2, rs) := serve_in_turn rest db1 in
      (db2, r :: rs)
  end.

(** ** Vocabulary of the statements *)

Definition is_okay (r : response) : bool :=
  match r with
  | Okay _ _ _ => true
  | _ => false
  end.

Definition quoted_quantity (p : page) : option Z :=
  match p with
  | Checkout q => Some (q_quantity q)
  | _ => None
  end.

(** The ints of a claim fit in BSON: the documents of [complete] then
    encode. *)
Definition storable (data : claim) : bool :=
  bson_int (tierIdx data) && bson_int (quantity data)
  && bson_int (chainId data).

(** The same of an order that [complete] is about to write. *)
Definition order_encodes (o : order) : bool :=
  bson_int (o_tier_idx o) && bson_int (o_qty o) && bson_int (o_chain_id o).

(** Tickets of one payment. *)
Definition for_payment (payment_id : string) (t : ticket) : bool :=
  String.eqb (tk_payment_id t) payment_id.

(** Tickets sold for a tier, as [_tier_availability] counts them. *)
Definition sold_for (db : DB) (oid : ObjectId) (tier_idx : Z) : Z :=
  count_documents (ticket_query (oid_str oid) tier_idx) (ticket_rows db).

(** The audit row repeats the payment. *)
Definition mirrors (tx : transaction) (p : payment) : Prop :=
  tx_payment_id tx = oid_str (pay_id p)
  /\ tx_attendee_id tx = pay_attendee_id p
  /\ tx_organizer_id tx = pay_organizer_id p
  /\ tx_event_id tx = pay_event_id p
  /\ tx_tier_index tx = pay_tier_index p
  /\ tx_quantity tx = pay_quantity p
  /\ tx_amount tx = pay_amount p
  /\ tx_currency tx = pay_currency p
  /\ tx_to tx = pay_pay_to p
  /\ tx_from tx = or_none (pay_payer p)
  /\ tx_tx_hash tx = pay_tx_hash p
  /\ tx_base_payment_id tx = pay_base_payment_id p
  /\ tx_base_status tx = pay_base_status p
  /\ tx_chain_id tx = pay_chain_id p
  /\ tx_created_at tx = pay_created_at p.

(** The chain id of the configured network. *)
Definition configured_chain_id : Z :=
  match NETS ACTIVE_NETWORK with
  | Some net => chain_id net
  | None => 0
  end.

Definition with_chain (c : Z) (data : claim) : claim :=
  {| eventId := eventId data; tierIdx := tierIdx data;
     quantity := quantity data; from_ := from_ data; to_ := to_ data;
     chainId := c; amountUSDC := amountUSDC data;
     basePaymentId := basePaymentId data; baseStatus := baseStatus data;
     baseStatusRaw := baseStatusRaw data; txHash := txHash data |}.

Definition with_recipient (a : string) (data : claim) : claim :=
  {| eventId := eventId data; tierIdx := tierIdx data;
     quantity := quantity data; from_ := from_ data; to_ := a;
     chainId := chainId data; amountUSDC := amountUSDC data;
     basePaymentId := basePaymentId data; baseStatus := baseStatus data;
     baseStatusRaw := baseStatusRaw data; txHash := txHash data |}.

Definition order_with_chain (c : Z) (o : order) : order :=
  {| o_uid := o_uid o; o_organizer_id := o_organizer_id o;
     o_event_id := o_event_id o; o_tier_idx := o_tier_idx o;
     o_qty := o_qty o; o_price := o_price o;
     o_expected_amount := o_expected_amount o; o_payer := o_payer o;
     o_paid_to := o_paid_to o; o_chain_id := c;
     o_base_payment_id := o_base_payment_id o;
     o_base_status := o_base_status o;
     o_base_status_raw := o_base_status_raw o; o_tx_hash := o_tx_hash o |}.

Definition order_with_recipient (a : string) (o : order) : order :=
  {| o_uid := o_uid o; o_organizer_id := o_organizer_id o;
     o_event_id := o_event_id o; o_tier_idx := o_tier_idx o;
     o_qty := o_qty o; o_price := o_price o;
     o_expected_amount := o_expected_amount o; o_payer := o_payer o;
     o_paid_to := a; o_chain_id := o_chain_id o;
     o_base_payment_id := o_base_payment_id o;
     o_base_status := o_base_status o;
     o_base_status_raw := o_base_status_raw o; o_tx_hash := o_tx_hash o |}.


(** *** The specification's wording, for comparison *)

(** "max(1, min(requestedQuantity, per_order_limit_or_available, available))" *)
Definition spec_clamp (requested per_order_limit avail : Z) : Z :=
  let limit_or_available :=
    if 0 <? per_order_limit then per_order_limit else avail in
  Z.max 1 (Z.min requested (Z.min limit_or_available avail)).

(** "0x + 40 hex characters" *)
Definition spec_valid_address (a : string) : bool :=
  String.prefix "0x" a && (String.length a =? 42)%nat
  && all_hex (String.substring 2 40 a).

(** The candidates of the payout lookup, in the order they are tried. *)
Definition account_fields (doc : account) : list (option string) :=
  [acc_payout_address doc; acc_wallet_address doc; acc_treasury_wallet doc;
   acc_usdc_wallet doc; acc_billing_payout_address doc;
   acc_settings_payout_address doc].

Definition collection_fields (oid : option ObjectId)
    (coll : option (gmap string account)) : list (option string) :=
  match oid, coll with
  | Some o, Some docs => account_fields (default no_account (docs !! o))
  | _, _ => []
  end.

Definition event_fields (ev : event) : list (option string) :=
  [ev_payout_address ev; ev_organizer_payout_address ev;
   ev_treasury_address ev; ev_usdc_payout ev; ev_wallet_address ev].

Definition organizer_oid (ev : event) : option ObjectId :=
  _to_oid_field (py_or (py_or (ev_organizer_id ev) (ev_organizer_user_id ev))
                       (ev_organizer ev)).

Definition payout_candidates (db : DB) (ev : event) : list (option string) :=
  Some (_pick (event_fields ev))
  :: collection_fields (organizer_oid ev) (organizers db)
  ++ collection_fields (organizer_oid ev) (users db)
  ++ [Some DEFAULT_PAYOUT_ADDRESS].

(** The specification's resolver: every address field is a candidate, and
    the first that is "0x + 40 hex characters" wins. *)
Fixpoint spec_first_valid (cands : list (option string)) : option string :=
  match cands with
  | [] => None
  | c :: rest =>
      if spec_valid_address (strip (or_empty c)) then Some (strip (or_empty c))
      else spec_first_valid rest
  end.

Definition spec_resolve (db : DB) (ev : event) : option string :=
  spec_first_valid
    (event_fields ev
     ++ collection_fields (organizer_oid ev) (organizers db)
     ++ collection_fields (organizer_oid ev) (users db)
     ++ [Some DEFAULT_PAYOUT_ADDRESS]).

(** ** Sample data *)

Definition sample_event_id : string := "68a9252b922451518430a216".
Definition sample_organizer_id : string := "68a85a8e5912f230d6cdd038".
Definition sample_wallet : string :=
  "0xAAAAAAAAAAAAAAAAAAAAAAAAAAAAAAAAAAAAAAAA".
Definition sample_payer : string :=
  "0x1111111111111111111111111111111111111111".
Definition sample_id1 : string := "68b000000000000000000001".
Definition sample_id2 : string := "68b000000000000000000002".

Definition sample_now : datetime :=
  {| dt_year := 2025; dt_month := 8; dt_day := 23; dt_usec := 43200000000 |}.

Definition sample_tier (price : float) (supply limit : Z) : tier :=
  {| t_price := price; t_supply := supply; t_per_order_limit := limit;
     t_sales_start := BMissing; t_sales_end := BMissing |}.

(** A tier whose sales ended on 2025-06-30. *)
Definition closed_tier : tier :=
  {| t_price := 10; t_supply := 3; t_per_order_limit := 0;
     t_sales_start := BMissing;
     t_sales_end := BDatetime {| dt_year := 2025; dt_month := 6;
                                 dt_day := 30; dt_usec := 0 |} |}.

(** A tier whose start of sales is written with an offset that puts it
    before the year 1 in UTC, like ["0001-01-01T00:00:00+01:00"]. *)
Definition unreadable_tier : tier :=
  {| t_price := 10; t_supply := 3; t_per_order_limit := 0;
     t_sales_start := BIso IsoOutOfRange; t_sales_end := BMissing |}.

Definition sample_event (tiers : list tier) : event :=
  {| ev_status := "published"; ev_tiers := tiers;
     ev_organizer_id := Some sample_organizer_id;
     ev_organizer_user_id := None; ev_organizer := None;
     ev_payout_address := None; ev_organizer_payout_address := None;
     ev_treasury_address := None; ev_usdc_payout := None;
     ev_wallet_address := None |}.

Definition sample_user : account :=
  {| acc_payout_address := None; acc_wallet_address := Some sample_wallet;
     acc_treasury_wallet := None; acc_usdc_wallet := None;
     acc_billing_payout_address := None;
     acc_settings_payout_address := None |}.

(** One published event, its organizer among the users, nothing sold. *)
Definition sample_db (tiers : list tier) : DB :=
  {| events := {[ sample_event_id := sample_event tiers ]};
     organizers := None;
     users := Some {[ sample_organizer_id := sample_user ]};
     payments := []; transactions := []; tickets := None |}.

(** An event whose own payout field is not hexadecimal. *)
Definition odd_address : string :=
  "0xzzzzzzzzzzzzzzzzzzzzzzzzzzzzzzzzzzzzzzzz".

Definition odd_event : event :=
  {| ev_status := "published"; ev_tiers := [sample_tier 10 3 0];
     ev_organizer_id := Some sample_organizer_id;
     ev_organizer_user_id := None; ev_organizer := None;
     ev_payout_address := Some odd_address;
     ev_organizer_payout_address := None;
     ev_treasury_address := None; ev_usdc_payout := None;
     ev_wallet_address := None |}.

(** An event with a note in its first payout field and an address in a
    later one. *)
Definition second_field_event : event :=
  {| ev_status := "published"; ev_tiers := [sample_tier 10 3 0];
     ev_organizer_id := Some sample_organizer_id;
     ev_organizer_user_id := None; ev_organizer := None;
     ev_payout_address := Some "ask the treasurer";
     ev_organizer_payout_address := None;
     ev_treasury_address := None; ev_usdc_payout := None;
     ev_wallet_address := Some sample_payer |}.

Definition sample_claim (qty : Z) (amount : float) : claim :=
  {| eventId := sample_event_id; tierIdx := 0; quantity := qty;
     from_ := sample_payer; to_ := sample_wallet; chainId := 8453;
     amountUSDC := Some amount; basePaymentId := "basepay_1";
     baseStatus := "succeeded"; baseStatusRaw := None; txHash := "" |}.

(** * Around the checkout *)


(** ** Consistency of the ledger *)

(** The id under which a request's payment is inserted. *)
Definition inserted_id_of (r : option string * claim * datetime * string)
  : string :=
  snd r.

(** Payments have distinct ids; the transactions repeat the payments one
    for one, in order; every payment has exactly [quantity] tickets; and
    every ticket belongs to a payment and repeats its event, tier and
    unit price. *)
Definition ledger_ok (db : DB) : Prop :=
  List.NoDup (map pay_id (payments db))
  /\ map tx_payment_id (transactions db)
     = map (fun p => oid_str (pay_id p)) (payments db)
  /\ (forall p, In p (payments db) ->
        count_documents (for_payment (oid_str (pay_id p))) (ticket_rows db)
        = pay_quantity p)
  /\ (forall t, In t (ticket_rows db) ->
        exists p, In p (payments db)
                  /\ tk_payment_id t = oid_str (pay_id p)
                  /\ tk_event_id t = pay_event_id p
                  /\ tk_tier_index t = pay_tier_index p
                  /\ tk_price t = pay_unit_price p).

(** [amount == round(unit_price * quantity, 6)] *)
Definition amount_consistent (p : payment) : Prop :=
  total_amount (pay_unit_price p) (pay_quantity p) = Some (pay_amount p).

(** ** Callers in [public.py] *)

(** [str(n)] for an int. *)
Definition str_of_int (n : Z) : string :=
  DecimalString.NilZero.string_of_int (Z.to_int n).

Inductive buy_page :=
| BuyRedirect (endpoint : string) (flash : string)
| BuyAbort (code : Z)
| BuyForward (args : start_args)     (* redirect to [checkout.start] *)
| BuyUncaught500.                    (* an exception nobody catches *)

(** [POST /events/<event_id>/buy].  The form is read like the query
    string of [start]: [a_tier_idx] and [a_quantity] hold
    [int(field or -1)] and [int(field or 0)], [None] when [int] raises. *)
Definition buy_tickets (uid : option string) (form : start_args)
    (now : datetime) (db : DB) : buy_page :=
  returned (
    _ <- some_or uid
           (BuyRedirect "login.login" "Please log in to buy tickets.") ;;
    let event_id := a_event_id form in
    _id <- some_or (_to_oid event_id) (BuyAbort 404) ;;
    ev <- some_or (find_published db _id) (BuyAbort 404) ;;
    tier_idx <- some_or (a_tier_idx form)
                  (BuyRedirect "public.event_profile" "Invalid selection.") ;;
    qty <- some_or (a_quantity form)
             (BuyRedirect "public.event_profile" "Invalid selection.") ;;
    let tiers := ev_tiers ev in
    _ <- require (in_bounds tier_idx tiers)
           (BuyRedirect "public.event_profile"
              "Please select a valid ticket tier.") ;;
    tier <- some_or (tiers !! Z.to_nat tier_idx) BuyUncaught500 ;;
    s <- some_or (_parse_sales_bound (t_sales_start tier) KStart)
           BuyUncaught500 ;;
    e <- some_or (_parse_sales_bound (t_sales_end tier) KEnd)
           BuyUncaught500 ;;
    _ <- require
           (negb (match s with Some s' => dt_ltb now s' | None => false end
                  || match e with Some e' => dt_ltb e' now | None => false end))
           (BuyRedirect "public.event_profile"
              "Sales window closed for this tier.") ;;
    let supply := t_supply tier in
    let sold :=
      match tickets db with
      | Some rows => count_documents (ticket_query (oid_str _id) tier_idx) rows
      | None => 0
      end in
    let avail := if supply =? 0 then 0 else Z.max 0 (supply - sold) in
    let per_order :=
      if t_per_order_limit tier =? 0 then avail else t_per_order_limit tier in
    _ <- require (negb ((qty <=? 0) || (per_order <? qty) || (avail <? qty)))
           (BuyRedirect "public.event_profile"
              ("Quantity must be between 1 and "
               ++ str_of_int (Z.min per_order avail) ++ "."))%string ;;
    inr (BuyForward {| a_event_id := event_id; a_tier_idx := Some tier_idx;
                       a_quantity := Some qty |})).

(** One entry of [tiers_vm] in [event_profile] (name and refundable flag
    left out). *)
Record tier_vm := {
  vm_idx : Z;
  vm_price : float;
  vm_per_order_limit : Z;
  vm_available : Z;
  vm_supply : Z;
  vm_sold : Z;
  vm_sales_open : bool
}.

(** The loop [for idx, t in enumerate(tiers)], from index [idx] on;
    [None] when [_tier_sales_open] raises for a tier. *)
Fixpoint tiers_vm_from (db : DB) (event_id : string) (now : datetime)
    (idx : nat) (tiers : list tier) : option (list tier_vm) :=
  match tiers with
  | [] => Some []
  | t :: rest =>
      let avail := _tier_availability db event_id (Z.of_nat idx) t in
      match _tier_sales_open t now with
      | None => None
      | Some sales_open =>
          match tiers_vm_from db event_id now (S idx) rest with
          | None => None
          | Some vms =>
              Some ({| vm_idx := Z.of_nat idx;
                       vm_price := or_zero (t_price t);
                       vm_per_order_limit := t_per_order_limit t;
                       vm_available := available avail;
                       vm_supply := supply avail;
                       vm_sold := sold avail;
                       vm_sales_open := sales_open |} :: vms)
          end
      end
  end.

Definition tiers_vm (db : DB) (event_id : string) (now : datetime)
    (tiers : list tier) : option (list tier_vm) :=
  tiers_vm_from db event_id now 0 tiers.

(** "pick first tier that is on sale and has stock" *)
Fixpoint first_open_idx (vms : list tier_vm) : option Z :=
  match vms with
  | [] => None
  | t :: rest =>
      if vm_sales_open t && (0 <? vm_available t) then Some (vm_idx t)
      else first_open_idx rest
  end.

(** "default quantity max for the first_open tier (min of per-order,
    available, 5)"; [None] stands for the [StopIteration] of [next]. *)
Definition default_qty_max (vms : list tier_vm) : option Z :=
  match first_open_idx vms with
  | None => Some 1
  | Some i =>
      match List.find (fun tt => vm_idx tt =? i) vms with
      | Some t =>
          let hard_cap :=
            if vm_per_order_limit t =? 0 then vm_available t
            else vm_per_order_limit t in
          Some (Z.max 1 (Z.min 5 (Z.min hard_cap (vm_available t))))
      | None => None
      end
  end.

Inductive profile_page :=
| ProfileAbort (code : Z)
| ProfileUncaught500
| ProfileView (tiers : list tier_vm) (first_open : option Z) (qty_max : Z).

(** The tier part of [GET /events/<event_id>]: the lookup of the event,
    the tier view, the preselected tier and the default quantity.  The
    lines between the lookup and the tier loop, which format the dates,
    the place and the images of the event, and the rendering after the
    tier part are left out: the result is what the handler computes when
    those lines do not raise. *)
Definition event_profile (event_id : string) (now : datetime) (db : DB)
  : profile_page :=
  returned (
    _id <- some_or (_to_oid event_id) (ProfileAbort 404) ;;
    ev <- some_or (find_published db _id) (ProfileAbort 404) ;;
    vms <- some_or (tiers_vm db (oid_str _id) now (ev_tiers ev))
             ProfileUncaught500 ;;
    qty_max <- some_or (default_qty_max vms) ProfileUncaught500 ;;
    inr (ProfileView vms (first_open_idx vms) qty_max)).

(** [_page_window(page, pages, width)]: the page numbers to show. *)
Definition _page_window (page pages width : Z) : list Z :=
  if pages <=? width then seqZ 1 pages
  else
    let half := width / 2 in
    let start := Z.max 1 (page - half) in
    let end_ := Z.min pages (start + width - 1) in
    let start := Z.max 1 (end_ - width + 1) in
    seqZ start (end_ + 1 - start).

(** ** Readers of the ledger

    The pages of an attendee select records by the filter document
    [{"attendee_id": uid}] ([attendee.py], [attendee_tickets.py],
    [attendee_transactions.py] when no filter is set). *)
Definition ticket_of_attendee (uid : string) (t : ticket) : bool :=
  String.eqb (tk_attendee_id t) uid.

Definition payment_of_attendee (uid : string) (p : payment) : bool :=
  String.eqb (pay_attendee_id p) uid.

Definition transaction_of_attendee (uid : string) (t : transaction) : bool :=
  String.eqb (tx_attendee_id t) uid.

(** ** More sample data *)

(** The sample event before it is published. *)
Definition draft_event : event :=
  {| ev_status := "draft"; ev_tiers := [sample_tier 10 3 0];
     ev_organizer_id := Some sample_organizer_id;
     ev_organizer_user_id := None; ev_organizer := None;
     ev_payout_address := None; ev_organizer_payout_address := None;
     ev_treasury_address := None; ev_usdc_payout := None;
     ev_wallet_address := None |}.

Definition draft_db : DB :=
  {| events := {[ sample_event_id := draft_event ]};
     organizers := None;
     users := Some {[ sample_organizer_id := sample_user ]};
     payments := []; transactions := []; tickets := None |}.

(** * Properties *)

(** Case analysis on an integer comparison, with the fact it decides. *)
Ltac case_ltb a b :=
  let H := fresh "Hcmp" in
  destruct (a <? b) eqn:H; [apply Z.ltb_lt in H | apply Z.ltb_ge in H].

Ltac case_eqb a b :=
  let H := fresh "Hcmp" in
  destruct (a =? b) eqn:H; [apply Z.eqb_eq in H | apply Z.eqb_neq in H].

(** ** Stripping *)

Lemma lstrip_length (s : string) :
  (String.length (lstrip s) <= String.length s)%nat.
Proof.
  induction s as [|a s IH]; simpl; [lia|].
  destruct (is_space a); simpl; lia.
Qed.

Lemma lstrip_idem (s : string) : lstrip (lstrip s) = lstrip s.
Proof.
  induction s as [|a s IH]; simpl; [reflexivity|].
  destruct (is_space a) eqn:Ha; [exact IH|].
  simpl. now rewrite Ha.
Qed.

Lemma lstrip_rstrip (s : string) :
  lstrip s = s -> lstrip (rstrip s) = rstrip s.
Proof.
  destruct s as [|a s]; simpl; [reflexivity|].
  destruct (is_space a) eqn:Ha.
  - intros H. pose proof (lstrip_length s) as Hl.
    rewrite H in Hl. simpl in Hl. lia.
  - intros _. destruct (rstrip s); simpl; now rewrite Ha.
Qed.

Lemma rstrip_idem (s : string) : rstrip (rstrip s) = rstrip s.
Proof.
  induction s as [|a s IH]; simpl; [reflexivity|].
  destruct (rstrip s) as [|b r] eqn:Hr.
  - destruct (is_space a) eqn:Ha; simpl; [reflexivity|now rewrite Ha].
  - simpl in *. now rewrite IH.
Qed.

Lemma strip_idem (s : string) : strip (strip s) = strip s.
Proof.
  unfold strip.
  rewrite (lstrip_rstrip (lstrip s)) by apply lstrip_idem.
  apply rstrip_idem.
Qed.

Lemma pick_stripped (vals : list (option string)) :
  strip (_pick vals) = _pick vals.
Proof.
  induction vals as [|[v|] vals IH]; simpl; [reflexivity| |exact IH].
  destruct (nonempty (strip v)); [apply strip_idem|exact IH].
Qed.

(** ** Rounding to six decimals *)

(** The values CPython prints for [round(x, 6)]: halves go to the even
    neighbour of the exact binary value, not of the decimal literal. *)
Example round6_values :
  round6 2.4e-6 = 2e-6%float
  /\ round6 1.5e-6 = 2e-6%float
  /\ round6 2.5e-6 = 3e-6%float
  /\ round6 0.125 = 0.125%float
  /\ round6 10.0000014 = 10.000001%float
  /\ round6 123456.7890125 = 123456.789012%float
  /\ round6 0x1p40 = 0x1p40%float
  /\ round6 infinity = infinity.
Proof. vm_compute. repeat split. Qed.

Example int_to_float_values :
  int_to_float 3 = Some 3%float
  /\ int_to_float (2 ^ 53 + 1) = Some 0x1p53%float
  /\ int_to_float (2 ^ 1024) = None.
Proof. vm_compute. repeat split. Qed.

(** ** Calls that raise *)

(** What [ObjectId(s)] accepts: case is ignored, white space between two
    bytes is skipped and leaves an id of fewer bytes; a string of another
    length, a character that is no digit and white space inside a byte
    are refused. *)
Example to_oid_values :
  _to_oid "68A9252B922451518430A216" = Some "68a9252b922451518430a216"
  /\ _to_oid "68a9252b 922451518430a2 " = Some "68a9252b922451518430a2"
  /\ _to_oid "68a9252b922451518430a21" = None
  /\ _to_oid "68a9252b922451518430a21z" = None
  /\ _to_oid "6 8a9252b922451518430a21" = None.
Proof. vm_compute. repeat split. Qed.

(** An int of nine bytes cannot be stored: the first insert raises and
    nothing is written. *)
Example unstorable_claim_raises :
  bson_int (2 ^ 63 - 1) = true
  /\ bson_int (2 ^ 63) = false
  /\ bson_int (- 2 ^ 63) = true
  /\ complete (Some "u1") (with_chain (2 ^ 63) (sample_claim 1 10))
       sample_now sample_id1 (sample_db [sample_tier 10 3 0])
     = (sample_db [sample_tier 10 3 0], Uncaught).
Proof. vm_compute. repeat split. Qed.

(** A sales bound that cannot be converted to UTC makes every page that
    reads it fail. *)
Example unreadable_bound_raises :
  let db := sample_db [sample_tier 10 3 0; unreadable_tier] in
  let args := {| a_event_id := sample_event_id; a_tier_idx := Some 1;
                 a_quantity := Some 1 |} in
  _tier_sales_open unreadable_tier sample_now = None
  /\ start (Some "u1") args sample_now db = Uncaught500
  /\ buy_tickets (Some "u1") args sample_now db = BuyUncaught500
  /\ event_profile sample_event_id sample_now db = ProfileUncaught500.
Proof. vm_compute. repeat split. Qed.

(** ** Counting rows *)

Lemma count_documents_app {A : Type} (q : A -> bool) (l l' : list A) :
  count_documents q (l ++ l') = count_documents q l + count_documents q l'.
Proof.
  unfold count_documents. rewrite List.filter_app, length_app. lia.
Qed.

Lemma count_documents_repeat {A : Type} (q : A -> bool) (x : A) (n : nat) :
  count_documents q (repeat x n) = if q x then Z.of_nat n else 0.
Proof.
  unfold count_documents.
  induction n as [|n IH]; simpl.
  - now destruct (q x).
  - destruct (q x) eqn:Hq; simpl; lia.
Qed.

Lemma count_documents_nonneg {A : Type} (q : A -> bool) (l : list A) :
  0 <= count_documents q l.
Proof. unfold count_documents. lia. Qed.

(** ** The inserts of a settlement *)

Lemma insert_tickets (t : ticket) (n : nat) (db : DB) :
  bson_int (tk_tier_index t) = true ->
  run_writes (repeat (InsTicket t) (S n)) db
  = ({| events := events db; organizers := organizers db; users := users db;
        payments := payments db; transactions := transactions db;
        tickets := Some (ticket_rows db ++ repeat t (S n)) |}, true).
Proof.
  intros Henc. revert db. induction n as [|n IH]; intros db.
  - cbn [repeat run_writes]. unfold apply_write. cbn [encodes].
    rewrite Henc. reflexivity.
  - change (repeat (InsTicket t) (S (S n)))
      with (InsTicket t :: repeat (InsTicket t) (S n)).
    cbn [run_writes]. unfold apply_write at 1. cbn [encodes].
    rewrite Henc, IH. unfold ticket_rows. simpl.
    rewrite <- app_assoc. reflexivity.
Qed.

(** The inserts of an order go through together or not at all: the
    payment document is the first, and it holds every int of the later
    ones. *)
Lemma run_settle_writes (o : order) (now_dt : datetime) (id : string) (db : DB) :
  0 < o_qty o ->
  run_writes (settle_writes o now_dt id) db
  = if order_encodes o then (settled db o now_dt id, true) else (db, false).
Proof.
  intros Hq. unfold settle_writes, settled, order_encodes.
  cbn [run_writes]. unfold apply_write at 1.
  cbn [encodes pay_doc pay_tier_index pay_quantity pay_chain_id].
  destruct (bson_int (o_tier_idx o)) eqn:Hi; [|reflexivity].
  destruct (bson_int (o_qty o)) eqn:Hn; [|reflexivity].
  destruct (bson_int (o_chain_id o)) eqn:Hc; [|reflexivity].
  cbn [andb]. unfold apply_write at 1.
  cbn [encodes tx_doc tx_tier_index tx_quantity tx_chain_id].
  rewrite Hi, Hn, Hc. cbn [andb].
  destruct (Z.to_nat (o_qty o)) as [|n] eqn:Hz; [lia|].
  rewrite insert_tickets by exact Hi. reflexivity.
Qed.

Lemma ticket_rows_settled db o now_dt id :
  ticket_rows (settled db o now_dt id)
  = ticket_rows db
    ++ repeat (ticket_doc o now_dt (oid_str id)) (Z.to_nat (o_qty o)).
Proof. reflexivity. Qed.

Lemma find_published_settled db o now_dt id oid :
  find_published (settled db o now_dt id) oid = find_published db oid.
Proof. reflexivity. Qed.

Lemma find_published_event db oid ev :
  find_published db oid = Some ev -> events db !! oid = Some ev.
Proof.
  unfold find_published. destruct (events db !! oid) as [e|]; [|discriminate].
  destruct (String.eqb _ _); [|discriminate]. now intros [= ->].
Qed.

Lemma sold_for_settled db o now_dt id oid tier_idx :
  0 <= o_qty o ->
  sold_for (settled db o now_dt id) oid tier_idx
  = sold_for db oid tier_idx
    + (if String.eqb (o_event_id o) (oid_str oid) && (o_tier_idx o =? tier_idx)
       then o_qty o else 0).
Proof.
  intros Hq. unfold sold_for, settled, ticket_rows at 1. simpl.
  rewrite count_documents_app, count_documents_repeat.
  unfold ticket_query at 2. simpl.
  destruct (_ && _); [rewrite Z2Nat.id by assumption|]; reflexivity.
Qed.

Lemma available_sold db oid tier_idx t :
  available (_tier_availability db (oid_str oid) tier_idx t)
  = if t_supply t =? 0 then 0
    else Z.max 0 (t_supply t - sold_for db oid tier_idx).
Proof.
  unfold _tier_availability, sold_for, ticket_rows. simpl.
  destruct (tickets db); reflexivity.
Qed.


(** ** What [checks] lets through *)

Lemma checks_accepts (uid : option string) (data : claim) (db : DB) (o : order) :
  checks uid data db = inr o <->
  exists u oid ev t expected,
    uid = Some u
    /\ payload_ok data = true
    /\ _to_oid (eventId data) = Some oid
    /\ find_published db oid = Some ev
    /\ in_bounds (tierIdx data) (ev_tiers ev) = true
    /\ ev_tiers ev !! Z.to_nat (tierIdx data) = Some t
    /\ (available (_tier_availability db (oid_str oid) (tierIdx data) t)
        <? quantity data) = false
    /\ total_amount (or_zero (t_price t)) (quantity data) = Some expected
    /\ amount_mismatch (paid_amount_of (amountUSDC data)) expected = false
    /\ o = make_order u oid ev (or_zero (t_price t)) expected data.
Proof.
  unfold checks, bind, some_or, require. split.
  - destruct uid as [u|]; [|discriminate].
    destruct (payload_ok data) eqn:Hp; [|discriminate].
    destruct (_to_oid (eventId data)) as [oid|] eqn:Ho; [|discriminate].
    destruct (find_published db oid) as [ev|] eqn:Hf; [|discriminate].
    destruct (in_bounds (tierIdx data) (ev_tiers ev)) eqn:Hb; [|discriminate].
    destruct (ev_tiers ev !! Z.to_nat (tierIdx data)) as [t|] eqn:Ht;
      [|discriminate].
    destruct (available _ <? quantity data) eqn:Hav; [discriminate|]. simpl.
    destruct (total_amount _ _) as [e|] eqn:He; [|discriminate].
    destruct (amount_mismatch _ e) eqn:Hm; [discriminate|]. simpl.
    intros [= <-]. exists u, oid, ev, t, e.
    repeat split; first [reflexivity | assumption].
  - intros (u & oid & ev & t & e & -> & -> & -> & -> & -> & -> & -> & -> & -> & ->).
    reflexivity.
Qed.

Lemma checks_rejects uid data db r :
  checks uid data db = inl r -> is_okay r = false.
Proof.
  unfold checks, bind, some_or, require.
  destruct uid as [u|]; [|now intros [= <-]].
  destruct (payload_ok data); [|now intros [= <-]].
  destruct (_to_oid (eventId data)) as [oid|]; [|now intros [= <-]].
  destruct (find_published db oid) as [ev|]; [|now intros [= <-]].
  destruct (in_bounds (tierIdx data) (ev_tiers ev)); [|now intros [= <-]].
  destruct (ev_tiers ev !! Z.to_nat (tierIdx data)) as [t|];
    [|now intros [= <-]].
  destruct (available _ <? quantity data); [now intros [= <-]|]. cbn [negb].
  destruct (total_amount _ _) as [e|]; [|now intros [= <-]].
  destruct (amount_mismatch _ e); [now intros [= <-]|discriminate].
Qed.

Lemma complete_rejected uid data now_dt id db r :
  checks uid data db = inl r -> complete uid data now_dt id db = (db, r).
Proof. unfold complete. now intros ->. Qed.

Lemma payload_quantity data : payload_ok data = true -> 0 < quantity data.
Proof.
  unfold payload_ok. intros Hp.
  destruct (nonempty (eventId data)); [|discriminate].
  destruct (0 <? quantity data) eqn:Hq; [|discriminate]. lia.
Qed.

Lemma checks_quantity uid data db o :
  checks uid data db = inr o -> 0 < o_qty o /\ o_qty o = quantity data.
Proof.
  intros H. apply checks_accepts in H
    as (u & oid & ev & t & e & _ & Hp & _ & _ & _ & _ & _ & _ & _ & ->).
  unfold payload_ok in Hp. simpl. split; [|reflexivity].
  destruct (nonempty (eventId data)); [|discriminate].
  destruct (0 <? quantity data) eqn:Hq; [|discriminate]. lia.
Qed.

Lemma checks_encodes uid data db o :
  checks uid data db = inr o -> order_encodes o = storable data.
Proof.
  intros H. apply checks_accepts in H
    as (u & oid & ev & t & e & _ & _ & _ & _ & _ & _ & _ & _ & _ & ->).
  reflexivity.
Qed.

(** [complete] once the checks have passed: everything is written, or
    the first insert raises and nothing is. *)
Lemma complete_checked uid data now_dt id db o :
  checks uid data db = inr o ->
  complete uid data now_dt id db
  = if storable data then (settled db o now_dt id, success o id)
    else (db, Uncaught).
Proof.
  intros H. unfold complete. rewrite H.
  rewrite run_settle_writes by now apply checks_quantity in H.
  rewrite (checks_encodes _ _ _ _ H). now destruct (storable data).
Qed.

Lemma complete_accepted uid data now_dt id db o :
  checks uid data db = inr o ->
  storable data = true ->
  complete uid data now_dt id db = (settled db o now_dt id, success o id).
Proof. intros H Hs. now rewrite (complete_checked _ _ _ _ _ _ H), Hs. Qed.

(** A call that answers with success was checked and could be stored. *)
Lemma complete_okay_inv uid data now_dt id db :
  is_okay (snd (complete uid data now_dt id db)) = true ->
  exists o, checks uid data db = inr o /\ storable data = true.
Proof.
  destruct (checks uid data db) as [r|o] eqn:Hc.
  - rewrite (complete_rejected _ _ _ _ _ _ Hc). cbn [snd].
    now rewrite (checks_rejects _ _ _ _ Hc).
  - rewrite (complete_checked _ _ _ _ _ _ Hc).
    destruct (storable data); [now exists o|discriminate].
Qed.

Lemma in_bounds_lookup (i : nat) (tiers : list tier) (t : tier) :
  tiers !! i = Some t -> in_bounds (Z.of_nat i) tiers = true.
Proof.
  intros Ht. apply lookup_lt_Some in Ht. unfold in_bounds.
  apply negb_true_iff, orb_false_iff.
  split; [apply Z.ltb_ge|apply Z.leb_gt]; lia.
Qed.

(** ** A request that reaches the stock check *)

Section Reached.

(** A logged-in buyer [u] whose request [data] has passed the payload
    check, names the published event [ev] and, within bounds, its tier
    [t]. *)
Variables (u : string) (data : claim) (db : DB).
Variables (oid : string) (ev : event) (t : tier).
Hypothesis payload : payload_ok data = true.
Hypothesis parsed : _to_oid (eventId data) = Some oid.
Hypothesis published : find_published db oid = Some ev.
Hypothesis bounded : in_bounds (tierIdx data) (ev_tiers ev) = true.
Hypothesis found : ev_tiers ev !! Z.to_nat (tierIdx data) = Some t.

(** [checks] from the stock check on. *)
Lemma checks_from_stock :
  checks (Some u) data db
  = if available (_tier_availability db (oid_str oid) (tierIdx data) t)
       <? quantity data
    then inl (Err "sold_out" 409)
    else match total_amount (or_zero (t_price t)) (quantity data) with
         | None => inl Uncaught
         | Some e =>
             if amount_mismatch (paid_amount_of (amountUSDC data)) e
             then inl (Err "amount_mismatch" 400)
             else inr (make_order u oid ev (or_zero (t_price t)) e data)
         end.
Proof.
  unfold checks, bind, some_or, require.
  rewrite payload, parsed, published, bounded, found.
  destruct (available _ <? quantity data); [reflexivity|].
  cbn [negb]. destruct (total_amount _ _) as [e|]; [|reflexivity].
  destruct (amount_mismatch _ e); reflexivity.
Qed.



End Reached.

(** ** The amount check (C6) *)



(** ** The sales window (C10) *)


(** ** Capacity (C2) *)

Lemma complete_events uid data now_dt id db :
  events (fst (complete uid data now_dt id db)) = events db.
Proof.
  destruct (checks uid data db) as [r|o] eqn:Hc.
  - now rewrite (complete_rejected _ _ _ _ _ _ Hc).
  - rewrite (complete_checked _ _ _ _ _ _ Hc). now destruct (storable data).
Qed.

(** One completion keeps a tier within its supply. *)
Lemma complete_sold_bound uid data now_dt id db oid ev i t :
  events db !! oid = Some ev ->
  ev_tiers ev !! i = Some t ->
  0 <= sold_for db oid (Z.of_nat i) <= t_supply t ->
  0 <= sold_for (fst (complete uid data now_dt id db)) oid (Z.of_nat i)
    <= t_supply t.
Proof.
  intros Hev Ht Hinv.
  destruct (checks uid data db) as [r|o] eqn:Hc.
  - rewrite (complete_rejected _ _ _ _ _ _ Hc). exact Hinv.
  - rewrite (complete_checked _ _ _ _ _ _ Hc).
    destruct (storable data); [|exact Hinv]. cbn [fst].
    pose proof (checks_quantity _ _ _ _ Hc) as [Hq _].
    rewrite sold_for_settled by lia.
    apply checks_accepts in Hc
      as (u & oid' & ev' & t' & e & _ & _ & _ & Hf & Hb & Ht' & Hav & _ & _ & ->).
    cbn [make_order o_event_id o_tier_idx o_qty] in *. unfold oid_str in *.
    destruct (String.eqb oid' oid) eqn:Ho; cbn [andb]; [|lia].
    apply String.eqb_eq in Ho. subst oid'.
    case_eqb (tierIdx data) (Z.of_nat i); [|lia].
    apply find_published_event in Hf. rewrite Hev in Hf.
    injection Hf as <-. rewrite Hcmp, Nat2Z.id, Ht in Ht'.
    injection Ht' as <-.
    pose proof (available_sold db oid (tierIdx data) t) as Ha.
    unfold oid_str in Ha. rewrite Ha in Hav. rewrite Hcmp in *.
    apply Z.ltb_ge in Hav.
    destruct (t_supply t =? 0); lia.
Qed.

(** Completions one after the other keep a tier within its supply. *)
Lemma serve_in_turn_keeps_capacity reqs db oid ev i t :
  events db !! oid = Some ev ->
  ev_tiers ev !! i = Some t ->
  0 <= sold_for db oid (Z.of_nat i) <= t_supply t ->
  0 <= sold_for (fst (serve_in_turn reqs db)) oid (Z.of_nat i) <= t_supply t.
Proof.
  revert db.
  induction reqs as [|[[[uid data] now_dt] id] reqs IH]; intros db Hev Ht Hinv;
    [exact Hinv|].
  cbn [serve_in_turn].
  pose proof (complete_sold_bound uid data now_dt id db oid ev i t Hev Ht Hinv)
    as Hstep.
  pose proof (complete_events uid data now_dt id db) as Hsame.
  destruct (complete uid data now_dt id db) as [db1 r]. cbn [fst] in *.
  rewrite <- Hsame in Hev. specialize (IH db1 Hev Ht Hstep).
  destruct (serve_in_turn reqs db1) as [db2 rs]. exact IH.
Qed.

Lemma serve_in_turn_keeps_capacity_witness :
  0 <= sold_for
         (fst (serve_in_turn
                 [(Some "u1", sample_claim 2 20, sample_now, sample_id1);
                  (Some "u2", sample_claim 2 20, sample_now, sample_id2)]
                 (sample_db [sample_tier 10 3 0])))
         sample_event_id (Z.of_nat 0) <= 3.
Proof.
  apply (serve_in_turn_keeps_capacity
           [(Some "u1", sample_claim 2 20, sample_now, sample_id1);
            (Some "u2", sample_claim 2 20, sample_now, sample_id2)]
           (sample_db [sample_tier 10 3 0]) sample_event_id
           (sample_event [sample_tier 10 3 0]) 0%nat (sample_tier 10 3 0)
           eq_refl eq_refl).
  vm_compute. split; discriminate.
Defined.

(** C2. A completion keeps [0 <= sold <= supply] for every tier of every
    event: a tier that satisfies it before the call satisfies it after.
    A well-formed request for more units than [supply - sold] of its tier
    is answered [sold_out] and leaves the database as it was. *)
Theorem complete_keeps_capacity uid data now_dt id db oid ev i t :
  events db !! oid = Some ev ->
  ev_tiers ev !! i = Some t ->
  0 <= sold_for db oid (Z.of_nat i) <= t_supply t ->
  let db' := fst (complete uid data now_dt id db) in
  0 <= sold_for db' oid (Z.of_nat i) <= t_supply t
  /\ (forall u, uid = Some u ->
      payload_ok data = true ->
      _to_oid (eventId data) = Some oid ->
      ev_status ev = "published" ->
      tierIdx data = Z.of_nat i ->
      t_supply t - sold_for db oid (Z.of_nat i) < quantity data ->
      complete uid data now_dt id db = (db, Err "sold_out" 409)).
Proof.
  intros Hev Ht Hinv. cbv zeta. split.
  - now apply (complete_sold_bound uid data now_dt id db oid ev i t).
  - intros u -> Hp Ho Hs Hi Hlt.
    apply complete_rejected.
    assert (Hf : find_published db oid = Some ev).
    { unfold find_published. now rewrite Hev, Hs. }
    rewrite (checks_from_stock u data db oid ev t Hp Ho Hf).
    + rewrite available_sold, Hi.
      pose proof (payload_quantity data Hp) as Hq.
      destruct (t_supply t =? 0);
        (destruct (_ <? quantity data) eqn:Hl;
         [reflexivity|apply Z.ltb_ge in Hl; lia]).
    + rewrite Hi. eapply in_bounds_lookup, Ht.
    + now rewrite Hi, Nat2Z.id.
Qed.

Lemma complete_keeps_capacity_witness :
  0 <= sold_for (fst (complete (Some "u1") (sample_claim 2 20) sample_now
                        sample_id1 (sample_db [sample_tier 10 3 0])))
         sample_event_id 0 <= 3
  /\ complete (Some "u1") (sample_claim 4 40) sample_now sample_id1
       (sample_db [sample_tier 10 3 0])
     = (sample_db [sample_tier 10 3 0], Err "sold_out" 409).
Proof.
  pose proof (complete_keeps_capacity (Some "u1") (sample_claim 2 20)
                sample_now sample_id1 (sample_db [sample_tier 10 3 0])
                sample_event_id (sample_event [sample_tier 10 3 0]) 0%nat
                (sample_tier 10 3 0) eq_refl eq_refl) as H1.
  pose proof (complete_keeps_capacity (Some "u1") (sample_claim 4 40)
                sample_now sample_id1 (sample_db [sample_tier 10 3 0])
                sample_event_id (sample_event [sample_tier 10 3 0]) 0%nat
                (sample_tier 10 3 0) eq_refl eq_refl) as H2.
  split.
  - apply H1. vm_compute. split; discriminate.
  - apply H2 with (u := "u1"); try reflexivity.
    vm_compute. split; discriminate.
Defined.

(** ** Replayed completions (C1) *)

(** C1, as the code has it.  [complete] never looks a payment up: a claim
    that was settled and is delivered again goes through the same checks
    against the tickets now sold, and is either refused with [sold_out]
    (nothing written) or settled a second time.  The second settlement
    writes a second Payment under the newly generated id and a second
    Transaction, both with the external payment identifier of the first,
    and [quantity] more Tickets, which carry the new payment id. *)
Theorem complete_replay_settles_again uid data now1 now2 id1 id2 db :
  is_okay (snd (complete uid data now1 id1 db)) = true ->
  let db1 := fst (complete uid data now1 id1 db) in
  let replay := complete uid data now2 id2 db1 in
  exists o,
    checks uid data db = inr o
    /\ payments db1 = payments db ++ [pay_doc o now1 id1]
    /\ pay_id (pay_doc o now1 id1) = id1
    /\ pay_base_payment_id (pay_doc o now1 id1)
       = or_none (strip (basePaymentId data))
    /\ (replay = (db1, Err "sold_out" 409)
        \/ (replay = (settled db1 o now2 id2,
                      Okay (oid_str id2)
                           (or_none (strip (basePaymentId data)))
                           (o_event_id o))
            /\ payments (fst replay)
               = payments db ++ [pay_doc o now1 id1; pay_doc o now2 id2]
            /\ pay_id (pay_doc o now2 id2) = id2
            /\ pay_base_payment_id (pay_doc o now2 id2)
               = or_none (strip (basePaymentId data))
            /\ transactions (fst replay)
               = transactions db
                 ++ [tx_doc o now1 (oid_str id1); tx_doc o now2 (oid_str id2)]
            /\ tx_payment_id (tx_doc o now2 (oid_str id2)) = oid_str id2
            /\ tx_base_payment_id (tx_doc o now2 (oid_str id2))
               = or_none (strip (basePaymentId data))
            /\ ticket_rows (fst replay)
               = ticket_rows db
                 ++ repeat (ticket_doc o now1 (oid_str id1))
                           (Z.to_nat (quantity data))
                 ++ repeat (ticket_doc o now2 (oid_str id2))
                           (Z.to_nat (quantity data))
            /\ tk_payment_id (ticket_doc o now1 (oid_str id1)) = oid_str id1
            /\ tk_payment_id (ticket_doc o now2 (oid_str id2)) = oid_str id2)).
Proof.
  intros Hok. cbv zeta.
  destruct (complete_okay_inv _ _ _ _ _ Hok) as (o & Hc & Hst).
  exists o. split; [exact Hc|].
  rewrite (complete_accepted _ _ now1 id1 _ _ Hc Hst). cbn [fst].
  pose proof (checks_quantity _ _ _ _ Hc) as [_ Hq].
  apply checks_accepts in Hc
    as (u & oid & ev & t & e & -> & Hp & Ho & Hf & Hb & Ht & Hav & He & Hm & Hmk).
  split; [reflexivity|]. split; [reflexivity|]. split; [now subst o|].
  pose proof (checks_from_stock u data (settled db o now1 id1) oid ev t
                Hp Ho Hf Hb Ht) as Hc1.
  rewrite He, Hm, <- Hmk in Hc1.
  destruct (available (_tier_availability (settled db o now1 id1) _ _ _)
            <? quantity data).
  - left. now apply complete_rejected.
  - right.
    rewrite (complete_accepted _ _ now2 id2 _ _ Hc1 Hst).
    split; [now subst o|]. cbn [fst settled payments transactions].
    split; [now rewrite <- app_assoc|].
    split; [reflexivity|]. split; [now subst o|].
    split; [now rewrite <- app_assoc|].
    split; [reflexivity|]. split; [now subst o|].
    split; [now rewrite !ticket_rows_settled, Hq, <- app_assoc|].
    split; reflexivity.
Qed.

Lemma complete_replay_settles_again_witness :
  complete (Some "u1") (sample_claim 1 10) sample_now sample_id2
    (fst (complete (Some "u1") (sample_claim 1 10) sample_now sample_id1
            (sample_db [sample_tier 10 1 0])))
  = (fst (complete (Some "u1") (sample_claim 1 10) sample_now sample_id1
            (sample_db [sample_tier 10 1 0])), Err "sold_out" 409)
  /\ length (payments
       (fst (complete (Some "u1") (sample_claim 1 10) sample_now sample_id2
          (fst (complete (Some "u1") (sample_claim 1 10) sample_now sample_id1
                  (sample_db [sample_tier 10 3 0])))))) = 2%nat.
Proof.
  split.
  - destruct (complete_replay_settles_again (Some "u1") (sample_claim 1 10)
                sample_now sample_now sample_id1 sample_id2
                (sample_db [sample_tier 10 1 0]) eq_refl)
      as (o & _ & _ & _ & _ & [H|[H _]]).
    + exact H.
    + vm_compute in H. discriminate H.
  - destruct (complete_replay_settles_again (Some "u1") (sample_claim 1 10)
                sample_now sample_now sample_id1 sample_id2
                (sample_db [sample_tier 10 3 0]) eq_refl)
      as (o & _ & _ & _ & _ & [H|[_ [H _]]]).
    + vm_compute in H. discriminate H.
    + rewrite H. now rewrite length_app.
Defined.

(** C1 fails on the code.  The same claim, with the same external payment
    identifier, is completed twice: the second call answers with another
    payment id and leaves two Payments and two Transactions carrying that
    one identifier, and two Tickets, one under each payment id. *)
Lemma complete_replay_not_idempotent :
  let first := complete (Some "u1") (sample_claim 1 10) sample_now sample_id1
                 (sample_db [sample_tier 10 3 0]) in
  let second := complete (Some "u1") (sample_claim 1 10) sample_now sample_id2
                  (fst first) in
  map pay_base_payment_id (payments (fst first)) = [Some "basepay_1"]
  /\ snd first = Okay sample_id1 (Some "basepay_1") sample_event_id
  /\ snd second = Okay sample_id2 (Some "basepay_1") sample_event_id
  /\ map pay_base_payment_id (payments (fst second))
     = [Some "basepay_1"; Some "basepay_1"]
  /\ map tx_base_payment_id (transactions (fst second))
     = [Some "basepay_1"; Some "basepay_1"]
  /\ map pay_id (payments (fst second)) = [sample_id1; sample_id2]
  /\ map tx_payment_id (transactions (fst second)) = [sample_id1; sample_id2]
  /\ map tk_payment_id (ticket_rows (fst second)) = [sample_id1; sample_id2].
Proof. vm_compute. repeat split. Qed.

(** ** The records of one settlement (C3) *)

Lemma tx_doc_mirrors o now_dt id :
  mirrors (tx_doc o now_dt (oid_str id)) (pay_doc o now_dt id).
Proof. unfold mirrors. repeat split. Qed.

(** C3, as the code has it.  A call that fails writes nothing.  A call
    that succeeds appends one Payment whose status is ["paid"] when the
    claim carries a status and ["onchain_confirmed"] otherwise, one
    Transaction that mirrors it, and exactly [quantity] Tickets, each
    ["valid"] and each carrying the new payment id; nothing else changes.
    Once the call has returned, the Tickets of its payment number zero or
    [quantity]. *)
Theorem complete_writes_whole_batch uid data now_dt id db :
  count_documents (for_payment (oid_str id)) (ticket_rows db) = 0 ->
  let db' := fst (complete uid data now_dt id db) in
  let r := snd (complete uid data now_dt id db) in
  (is_okay r = false /\ db' = db
   /\ count_documents (for_payment (oid_str id)) (ticket_rows db') = 0)
  \/ (exists p tx tk,
        r = Okay (oid_str id) (pay_base_payment_id p) (pay_event_id p)
        /\ payments db' = payments db ++ [p]
        /\ pay_id p = id
        /\ pay_quantity p = quantity data
        /\ pay_status p = (if nonempty (strip (baseStatus data))
                           then "paid" else "onchain_confirmed")
        /\ transactions db' = transactions db ++ [tx]
        /\ mirrors tx p
        /\ ticket_rows db' = ticket_rows db ++ repeat tk (Z.to_nat (quantity data))
        /\ tk_status tk = "valid"
        /\ tk_payment_id tk = oid_str id
        /\ events db' = events db
        /\ organizers db' = organizers db
        /\ users db' = users db
        /\ count_documents (for_payment (oid_str id)) (ticket_rows db')
           = quantity data).
Proof.
  intros Hfresh. cbv zeta.
  destruct (checks uid data db) as [r|o] eqn:Hc.
  - left. rewrite (complete_rejected _ _ _ _ _ _ Hc). cbn [fst snd].
    split; [|split; [reflexivity|exact Hfresh]].
    now apply checks_rejects in Hc.
  - rewrite (complete_checked _ _ _ _ _ _ Hc).
    destruct (storable data);
      [right|left; cbn [fst snd];
             split; [reflexivity|split; [reflexivity|exact Hfresh]]].
    cbn [fst snd].
    pose proof (checks_quantity _ _ _ _ Hc) as [Hq Hq'].
    exists (pay_doc o now_dt id), (tx_doc o now_dt (oid_str id)),
           (ticket_doc o now_dt (oid_str id)).
    apply checks_accepts in Hc
      as (u & oid & ev & t & e & _ & _ & _ & _ & _ & _ & _ & _ & _ & Hmk).
    split; [reflexivity|]. split; [reflexivity|]. split; [reflexivity|].
    split; [exact Hq'|]. split; [now subst o|]. split; [reflexivity|].
    split; [apply tx_doc_mirrors|]. split; [now rewrite <- Hq'|].
    do 5 (split; [reflexivity|]).
    rewrite ticket_rows_settled, count_documents_app, Hfresh,
      count_documents_repeat.
    unfold for_payment at 1. cbn [ticket_doc tk_payment_id].
    rewrite String.eqb_refl. lia.
Qed.

Lemma complete_writes_whole_batch_witness :
  map pay_status
    (payments (fst (complete (Some "u1") (sample_claim 2 20) sample_now
                      sample_id1 (sample_db [sample_tier 10 3 0]))))
  = ["paid"]
  /\ count_documents (for_payment sample_id1)
       (ticket_rows (fst (complete (Some "u1") (sample_claim 2 20) sample_now
                            sample_id1 (sample_db [sample_tier 10 3 0]))))
     = 2.
Proof.
  destruct (complete_writes_whole_batch (Some "u1") (sample_claim 2 20)
              sample_now sample_id1 (sample_db [sample_tier 10 3 0]) eq_refl)
    as [(H & _)|(p & tx & tk & _ & Hpay & _ & _ & Hst & _ & _ & _ & _ & _ & _
                 & _ & _ & Hn)].
  - vm_compute in H. discriminate H.
  - split; [|exact Hn].
    rewrite Hpay. simpl. rewrite Hst. reflexivity.
Defined.

(** C3 fails on the code.  A claim for two tickets: the Payment is
    written with status ["paid"], not ["settled"]; and the inserts are
    separate steps, so after the fourth step of the request the database
    holds the Payment, its Transaction and one Ticket of the two, the
    request still writing. *)
Lemma settlement_partly_visible :
  let db := sample_db [sample_tier 10 3 0] in
  let req := Received (Some "u1") (sample_claim 2 20) sample_now sample_id1 in
  let mid := serve [0; 0; 0; 0]%nat ([req], db) in
  map pay_status (payments (fst (complete (Some "u1") (sample_claim 2 20)
                                   sample_now sample_id1 db))) = ["paid"]
  /\ map pay_id (payments (snd mid)) = [sample_id1]
  /\ count_documents (for_payment sample_id1) (ticket_rows (snd mid)) = 1
  /\ map (fun st => match st with
                    | Writing todo _ => Some (length todo)
                    | _ => None
                    end) (fst mid) = [Some 1%nat].
Proof. vm_compute. repeat split. Qed.

(** ** Completions one after the other, and side by side (C4) *)

Lemma serve_step_writing w ws r db n :
  serve (0%nat :: repeat 0%nat n) ([Writing (w :: ws) r], db)
  = match apply_write db w with
    | Some db' => serve (repeat 0%nat n) ([Writing ws r], db')
    | None => serve (repeat 0%nat n) ([Replied Uncaught], db)
    end.
Proof.
  unfold serve. cbn [fold_left]. unfold server_step at 2.
  cbn [lookup list_lookup request_step].
  now destruct (apply_write db w).
Qed.

Lemma serve_writing ws r db :
  exists n,
    serve (repeat 0%nat n) ([Writing ws r], db)
    = ([Replied (if snd (run_writes ws db) then r else Uncaught)],
       fst (run_writes ws db)).
Proof.
  revert db. induction ws as [|w ws IH]; intros db.
  - exists 1%nat. reflexivity.
  - cbn [run_writes]. destruct (apply_write db w) as [db'|] eqn:Hw.
    + destruct (IH db') as [n Hn]. exists (S n).
      change (repeat 0%nat (S n)) with (0%nat :: repeat 0%nat n).
      now rewrite serve_step_writing, Hw.
    + exists 1%nat.
      change (repeat 0%nat 1) with (0%nat :: repeat 0%nat 0).
      now rewrite serve_step_writing, Hw.
Qed.

(** A request served alone goes through the steps of [complete]. *)
Lemma serve_alone uid data now_dt id db :
  exists n,
    serve (repeat 0%nat n) ([Received uid data now_dt id], db)
    = ([Replied (snd (complete uid data now_dt id db))],
       fst (complete uid data now_dt id db)).
Proof.
  unfold complete. destruct (checks uid data db) as [r|o] eqn:Hc.
  - exists 1%nat. cbn. now rewrite Hc.
  - destruct (serve_writing (settle_writes o now_dt id) (success o id) db)
      as [n Hn].
    exists (S n). change (repeat 0%nat (S n)) with (0%nat :: repeat 0%nat n).
    unfold serve in *. cbn [fold_left]. unfold server_step at 2.
    cbn [lookup list_lookup request_step]. rewrite Hc.
    cbn [list_insert insert]. rewrite Hn.
    now destruct (run_writes (settle_writes o now_dt id) db).
Qed.





(** ** The quoted quantity (C5) *)

(** Where the per-order limit does not exceed the stock, or is not set,
    the quantity [start] quotes is the one the specification words. *)
Lemma clamp_quantity_within_stock qty_req per_order_limit avail :
  0 < avail ->
  per_order_limit <= avail ->
  clamp_quantity qty_req
    (if 0 <? per_order_limit then per_order_limit else avail)
  = spec_clamp qty_req per_order_limit avail.
Proof.
  intros Ha Hl. unfold clamp_quantity, spec_clamp.
  case_ltb 0 per_order_limit; case_eqb qty_req 0;
    match goal with
    | |- context [if ?a <? ?b then ?a else ?b] => case_ltb a b
    end;
    match goal with
    | |- context [?a <? 1] => case_ltb a 1
    end; lia.
Qed.

Lemma clamp_quantity_within_stock_witness :
  clamp_quantity 5 (if 0 <? 2 then 2 else 10) = spec_clamp 5 2 10
  /\ spec_clamp 5 2 10 = 2.
Proof.
  split; [|reflexivity].
  apply (clamp_quantity_within_stock 5 2 10); lia.
Defined.

(** C5 holds in the specification and fails in the code.  A tier with a
    per-order limit of 5 and 2 units in stock: a request for 5 is quoted
    5 units (and an amount for 5), where the clamp gives 2; completing
    the quoted order is then refused with [sold_out].  With a limit of 2
    and 10 in stock the request for 5 is quoted 2, as the claim says. *)
Theorem start_quotes_beyond_stock :
  let db := sample_db [sample_tier 10 2 5] in
  let args := {| a_event_id := sample_event_id; a_tier_idx := Some 0;
                 a_quantity := Some 5 |} in
  available (_tier_availability db sample_event_id 0 (sample_tier 10 2 5)) = 2
  /\ quoted_quantity (start (Some "u1") args sample_now db) = Some 5
  /\ spec_clamp 5 5 2 = 2
  /\ snd (complete (Some "u1") (sample_claim 5 50) sample_now sample_id1 db)
     = Err "sold_out" 409
  /\ quoted_quantity
       (start (Some "u1") args sample_now (sample_db [sample_tier 10 10 2]))
     = Some 2.
Proof. vm_compute. repeat split. Qed.

(** ** Network and recipient of a claim (C7, C8) *)

Lemma payload_ok_with_chain c data :
  c <> 0 ->
  payload_ok (with_chain c data)
  = nonempty (eventId data) && (0 <? quantity data)
    && nonempty (strip (to_ data)).
Proof.
  intros Hc. unfold payload_ok. cbn [with_chain eventId quantity chainId to_].
  apply Z.eqb_neq in Hc. rewrite Hc. cbn [negb]. now rewrite andb_true_r.
Qed.

Lemma checks_with_chain uid data db c c' :
  c <> 0 -> c' <> 0 ->
  checks uid (with_chain c data) db
  = match checks uid (with_chain c' data) db with
    | inl r => inl r
    | inr o => inr (order_with_chain c o)
    end.
Proof.
  intros Hc Hc'. unfold checks, bind, some_or, require.
  rewrite !payload_ok_with_chain by assumption.
  cbn [with_chain eventId tierIdx quantity amountUSDC].
  destruct uid as [u|]; [|reflexivity].
  destruct (_ && _); [|reflexivity].
  destruct (_to_oid (eventId data)) as [oid|]; [|reflexivity].
  destruct (find_published db oid) as [ev|]; [|reflexivity].
  destruct (in_bounds _ _); [|reflexivity].
  destruct (ev_tiers ev !! _) as [t|]; [|reflexivity].
  destruct (available _ <? _); [reflexivity|]. cbn [negb].
  destruct (total_amount _ _) as [e|]; [|reflexivity].
  destruct (amount_mismatch _ e); reflexivity.
Qed.

Lemma configured_chain_id_nonzero : configured_chain_id <> 0.
Proof. discriminate. Qed.

Lemma storable_with_chain c data :
  storable (with_chain c data)
  = bson_int (tierIdx data) && bson_int (quantity data) && bson_int c.
Proof. reflexivity. Qed.

(** C7, as the code has it.  [complete] compares the chain id of a claim
    with nothing.  A claim with any non-zero chain id that fits in eight
    bytes gets the answer the same claim would get with the configured
    chain id, and when it is settled the Payment and the Transaction
    record the chain id claimed.  A non-zero chain id that does not fit
    is refused where the configured one is refused, and where the
    configured one would be settled the insert raises.  A call that does
    not succeed writes nothing.  Only a chain id of zero (or none) is
    refused for the chain id, as [invalid_payload]. *)
Theorem complete_accepts_any_network uid data now_dt id db c :
  c <> 0 ->
  let claimed := complete uid (with_chain c data) now_dt id db in
  let configured :=
    complete uid (with_chain configured_chain_id data) now_dt id db in
  (bson_int c = true -> snd claimed = snd configured)
  /\ (bson_int c = false ->
      snd claimed
      = if is_okay (snd configured) then Uncaught else snd configured)
  /\ (is_okay (snd claimed) = false -> fst claimed = db)
  /\ (is_okay (snd claimed) = true ->
      exists p tx,
        payments (fst claimed) = payments db ++ [p]
        /\ pay_chain_id p = c
        /\ transactions (fst claimed) = transactions db ++ [tx]
        /\ tx_chain_id tx = c)
  /\ (forall u, uid = Some u ->
      complete uid (with_chain 0 data) now_dt id db
      = (db, Err "invalid_payload" 400)).
Proof.
  intros Hc. cbv zeta.
  pose proof (checks_with_chain uid data db c configured_chain_id Hc
                configured_chain_id_nonzero) as Hck.
  assert (Hzero : forall u, uid = Some u ->
            complete uid (with_chain 0 data) now_dt id db
            = (db, Err "invalid_payload" 400)).
  { intros u ->. apply complete_rejected.
    unfold checks, bind, some_or, require, payload_ok.
    cbn [with_chain chainId]. rewrite Z.eqb_refl. cbn [negb].
    now rewrite andb_false_r. }
  destruct (checks uid (with_chain configured_chain_id data) db) as [r|o]
    eqn:Hcfg.
  - rewrite (complete_rejected _ _ _ _ _ _ Hck),
      (complete_rejected _ _ _ _ _ _ Hcfg). cbn [fst snd].
    rewrite (checks_rejects _ _ _ _ Hcfg).
    split; [reflexivity|]. split; [reflexivity|].
    split; [reflexivity|]. split; [discriminate|exact Hzero].
  - rewrite (complete_checked _ _ _ _ _ _ Hck),
      (complete_checked _ _ _ _ _ _ Hcfg), !storable_with_chain.
    change (bson_int configured_chain_id) with true.
    rewrite andb_true_r.
    destruct (bson_int (tierIdx data) && bson_int (quantity data));
      cbn [andb fst snd is_okay success].
    + destruct (bson_int c); cbn [fst snd is_okay success].
      * split; [reflexivity|]. split; [discriminate|].
        split; [discriminate|]. split; [|exact Hzero].
        intros _. eexists. eexists. repeat split.
      * split; [discriminate|]. split; [reflexivity|].
        split; [reflexivity|]. split; [discriminate|exact Hzero].
    + split; [reflexivity|]. split; [reflexivity|].
      split; [reflexivity|]. split; [discriminate|exact Hzero].
Qed.

Lemma complete_accepts_any_network_witness :
  snd (complete (Some "u1") (with_chain 1 (sample_claim 1 10)) sample_now
         sample_id1 (sample_db [sample_tier 10 3 0]))
  = snd (complete (Some "u1")
           (with_chain configured_chain_id (sample_claim 1 10)) sample_now
           sample_id1 (sample_db [sample_tier 10 3 0]))
  /\ complete (Some "u1") (with_chain 0 (sample_claim 1 10)) sample_now
       sample_id1 (sample_db [sample_tier 10 3 0])
     = (sample_db [sample_tier 10 3 0], Err "invalid_payload" 400).
Proof.
  assert (H1 : 1 <> 0) by discriminate.
  destruct (complete_accepts_any_network (Some "u1") (sample_claim 1 10)
              sample_now sample_id1 (sample_db [sample_tier 10 3 0]) 1 H1)
    as (Ha & _ & _ & _ & Hb).
  split; [exact (Ha eq_refl)|exact (Hb "u1" eq_refl)].
Defined.

(** C7 fails on the code.  The configured network is Base mainnet, chain
    id 8453; a claim that names chain id 1 is settled, and the chain id 1
    is what the Payment records. *)
Lemma foreign_chain_claim_settled :
  let data := with_chain 1 (sample_claim 1 10) in
  let out := complete (Some "u1") data sample_now sample_id1
               (sample_db [sample_tier 10 3 0]) in
  configured_chain_id = 8453
  /\ (chainId data =? configured_chain_id) = false
  /\ snd out = Okay sample_id1 (Some "basepay_1") sample_event_id
  /\ map pay_chain_id (payments (fst out)) = [1]
  /\ length (transactions (fst out)) = 1%nat
  /\ length (ticket_rows (fst out)) = 1%nat.
Proof. vm_compute. repeat split. Qed.

Lemma payload_ok_with_recipient a data :
  nonempty (strip a) = true ->
  payload_ok (with_recipient a data)
  = nonempty (eventId data) && (0 <? quantity data)
    && negb (chainId data =? 0).
Proof.
  intros Ha. unfold payload_ok.
  cbn [with_recipient eventId quantity chainId to_].
  now rewrite Ha, andb_true_r.
Qed.

Lemma checks_with_recipient uid data db a a' :
  nonempty (strip a) = true -> nonempty (strip a') = true ->
  checks uid (with_recipient a data) db
  = match checks uid (with_recipient a' data) db with
    | inl r => inl r
    | inr o => inr (order_with_recipient (strip a) o)
    end.
Proof.
  intros Ha Ha'. unfold checks, bind, some_or, require.
  rewrite !payload_ok_with_recipient by assumption.
  cbn [with_recipient eventId tierIdx quantity amountUSDC].
  destruct uid as [u|]; [|reflexivity].
  destruct (_ && _); [|reflexivity].
  destruct (_to_oid (eventId data)) as [oid|]; [|reflexivity].
  destruct (find_published db oid) as [ev|]; [|reflexivity].
  destruct (in_bounds _ _); [|reflexivity].
  destruct (ev_tiers ev !! _) as [t|]; [|reflexivity].
  destruct (available _ <? _); [reflexivity|]. cbn [negb].
  destruct (total_amount _ _) as [e|]; [|reflexivity].
  destruct (amount_mismatch _ e); reflexivity.
Qed.

(** C8, as the code has it.  [complete] compares the paid-to address of a
    claim with nothing: a claim with any non-blank paid-to address gets
    the answer the same claim would get with any other, the payout
    address of the event among them, and when it is settled the Payment
    and the Transaction record the address claimed, trimmed.  Only a
    blank address is refused, as [invalid_payload]. *)
Theorem complete_accepts_any_recipient uid data now_dt id db a payout :
  nonempty (strip a) = true ->
  nonempty (strip payout) = true ->
  let claimed := complete uid (with_recipient a data) now_dt id db in
  let expected := complete uid (with_recipient payout data) now_dt id db in
  snd claimed = snd expected
  /\ (is_okay (snd claimed) = false -> fst claimed = db)
  /\ (is_okay (snd claimed) = true ->
      exists p tx,
        payments (fst claimed) = payments db ++ [p]
        /\ pay_pay_to p = strip a
        /\ transactions (fst claimed) = transactions db ++ [tx]
        /\ tx_to tx = strip a)
  /\ (forall u blank, uid = Some u -> nonempty (strip blank) = false ->
      complete uid (with_recipient blank data) now_dt id db
      = (db, Err "invalid_payload" 400)).
Proof.
  intros Ha Hp. cbv zeta.
  pose proof (checks_with_recipient uid data db a payout Ha Hp) as Hck.
  assert (Hblank : forall u blank, uid = Some u ->
            nonempty (strip blank) = false ->
            complete uid (with_recipient blank data) now_dt id db
            = (db, Err "invalid_payload" 400)).
  { intros u blank -> Hb. apply complete_rejected.
    unfold checks, bind, some_or, require, payload_ok.
    cbn [with_recipient to_]. rewrite Hb. now rewrite andb_false_r. }
  destruct (checks uid (with_recipient payout data) db) as [r|o] eqn:Hexp.
  - rewrite (complete_rejected _ _ _ _ _ _ Hck),
      (complete_rejected _ _ _ _ _ _ Hexp). cbn [fst snd].
    rewrite (checks_rejects _ _ _ _ Hexp).
    split; [reflexivity|]. split; [reflexivity|]. split; [discriminate|].
    exact Hblank.
  - rewrite (complete_checked _ _ _ _ _ _ Hck),
      (complete_checked _ _ _ _ _ _ Hexp).
    change (storable (with_recipient a data)) with (storable data).
    change (storable (with_recipient payout data)) with (storable data).
    destruct (storable data); cbn [fst snd is_okay success].
    + split; [reflexivity|]. split; [discriminate|]. split; [|exact Hblank].
      intros _. eexists. eexists. repeat split.
    + split; [reflexivity|]. split; [reflexivity|].
      split; [discriminate|exact Hblank].
Qed.

Lemma complete_accepts_any_recipient_witness :
  snd (complete (Some "u1") (with_recipient sample_payer (sample_claim 1 10))
         sample_now sample_id1 (sample_db [sample_tier 10 3 0]))
  = snd (complete (Some "u1")
           (with_recipient sample_wallet (sample_claim 1 10))
           sample_now sample_id1 (sample_db [sample_tier 10 3 0]))
  /\ complete (Some "u1") (with_recipient "  " (sample_claim 1 10))
       sample_now sample_id1 (sample_db [sample_tier 10 3 0])
     = (sample_db [sample_tier 10 3 0], Err "invalid_payload" 400).
Proof.
  destruct (complete_accepts_any_recipient (Some "u1") (sample_claim 1 10)
              sample_now sample_id1 (sample_db [sample_tier 10 3 0])
              sample_payer sample_wallet eq_refl eq_refl)
    as (Ha & _ & _ & Hb).
  split; [exact Ha|exact (Hb "u1" "  " eq_refl eq_refl)].
Defined.

(** C8 fails on the code.  The payout address of the event resolves to
    the organizer's wallet; a claim paid to another address is settled,
    and that other address is what the Payment records. *)
Lemma foreign_recipient_claim_settled :
  let db := sample_db [sample_tier 10 3 0] in
  let data := with_recipient sample_payer (sample_claim 1 10) in
  let out := complete (Some "u1") data sample_now sample_id1 db in
  _find_payout_address db (sample_event [sample_tier 10 3 0]) = sample_wallet
  /\ String.eqb (strip (to_ data)) sample_wallet = false
  /\ snd out = Okay sample_id1 (Some "basepay_1") sample_event_id
  /\ map pay_pay_to (payments (fst out)) = [sample_payer]
  /\ length (transactions (fst out)) = 1%nat
  /\ length (ticket_rows (fst out)) = 1%nat.
Proof. vm_compute. repeat split. Qed.

(** ** Payout resolution (C9) *)

Lemma nonempty_self (s : string) : (if nonempty s then s else "") = s.
Proof. now destruct s. Qed.

Lemma first_norm_app (l l' : list (option string)) :
  first_norm (l ++ l')
  = if nonempty (first_norm l) then first_norm l else first_norm l'.
Proof.
  induction l as [|v l IH]; [reflexivity|]. cbn [app first_norm].
  destruct (nonempty (_norm_addr v)) eqn:Hv; [now rewrite Hv|exact IH].
Qed.

Lemma account_payout_fields (doc : account) :
  account_payout doc = first_norm (account_fields doc).
Proof.
  unfold account_payout, account_fields.
  change [acc_payout_address doc; acc_wallet_address doc;
          acc_treasury_wallet doc; acc_usdc_wallet doc;
          acc_billing_payout_address doc; acc_settings_payout_address doc]
    with ([acc_payout_address doc; acc_wallet_address doc;
           acc_treasury_wallet doc; acc_usdc_wallet doc]
          ++ [acc_billing_payout_address doc;
              acc_settings_payout_address doc]).
  rewrite first_norm_app. destruct (nonempty (first_norm _)); [reflexivity|].
  cbn [first_norm]. now rewrite nonempty_self.
Qed.

Lemma collection_payout_fields oid coll :
  collection_payout oid coll = first_norm (collection_fields oid coll).
Proof.
  unfold collection_payout, collection_fields.
  destruct oid as [o|]; [|reflexivity].
  destruct coll as [docs|]; [|reflexivity]. apply account_payout_fields.
Qed.

Lemma norm_addr_some (s : string) :
  _norm_addr (Some s) = if addr_shape (strip s) then strip s else "".
Proof. reflexivity. Qed.

Lemma norm_addr_picked (vals : list (option string)) :
  nonempty (_norm_addr (Some (_pick vals))) = true ->
  _norm_addr (Some (_pick vals)) = _pick vals.
Proof.
  rewrite norm_addr_some, pick_stripped.
  now destruct (addr_shape (_pick vals)).
Qed.

(** C9, as the code has it.  The lookup tries, in this order, the first
    non-blank address field of the event, the fields of the organizer
    document, the fields of the user document (both only when the event's
    organizer id is an ObjectId and the collection exists) and the global
    fallback; it returns the first of them that, trimmed, begins with
    ["0x"] and is 42 characters long.  In particular, when the event and
    the organizer document give no such address and the user document has
    one under [wallet_address] and none under [payout_address], the
    user's address is returned. *)
Theorem payout_resolution_order db ev :
  _find_payout_address db ev = first_norm (payout_candidates db ev)
  /\ (forall oid docs doc w,
        _norm_addr (Some (_pick (event_fields ev))) = "" ->
        first_norm (collection_fields (organizer_oid ev) (organizers db)) = "" ->
        organizer_oid ev = Some oid ->
        users db = Some docs ->
        docs !! oid = Some doc ->
        _norm_addr (acc_payout_address doc) = "" ->
        acc_wallet_address doc = Some w ->
        addr_shape (strip w) = true ->
        _find_payout_address db ev = strip w).
Proof.
  assert (Href : _find_payout_address db ev
                 = first_norm (payout_candidates db ev)).
  { unfold _find_payout_address, payout_candidates.
    fold (event_fields ev). fold (organizer_oid ev).
    cbn [first_norm].
    destruct (nonempty (_norm_addr (Some (_pick (event_fields ev))))) eqn:He.
    - symmetry. now apply norm_addr_picked.
    - rewrite !first_norm_app, !collection_payout_fields.
      destruct (nonempty (first_norm (collection_fields _ (organizers db))));
        [reflexivity|].
      destruct (nonempty (first_norm (collection_fields _ (users db))));
        [reflexivity|].
      cbn [first_norm]. now rewrite nonempty_self. }
  split; [exact Href|].
  intros oid docs doc w Hev Horg Hoid Hu Hdoc Hpay Hw Hshape.
  rewrite Href. unfold payout_candidates. cbn [first_norm].
  rewrite Hev. cbn [nonempty]. rewrite !first_norm_app, Horg. cbn [nonempty].
  rewrite Hoid, Hu. cbn [collection_fields]. rewrite Hdoc.
  cbn [from_option id].
  unfold account_fields. cbn [first_norm]. rewrite Hpay, Hw. cbn [nonempty].
  assert (Hn : _norm_addr (Some w) = strip w).
  { now rewrite norm_addr_some, Hshape. }
  rewrite Hn.
  assert (Hne : nonempty (strip w) = true).
  { destruct (strip w); [discriminate Hshape|reflexivity]. }
  repeat (rewrite Hne; cbv iota). reflexivity.
Qed.

Lemma payout_resolution_order_witness :
  _find_payout_address (sample_db [sample_tier 10 3 0])
    (sample_event [sample_tier 10 3 0])
  = strip sample_wallet.
Proof.
  apply (proj2 (payout_resolution_order (sample_db [sample_tier 10 3 0])
                  (sample_event [sample_tier 10 3 0]))
           sample_organizer_id {[ sample_organizer_id := sample_user ]}
           sample_user sample_wallet);
    reflexivity.
Defined.

(** C9 fails on the code.  An event whose payout field is ["0x"] followed
    by forty letters z: the lookup returns it, although it is not
    hexadecimal and the user's wallet is the first candidate that is.  An
    event whose first payout field holds a note and whose last holds an
    address: the lookup passes the event over and returns the user's
    wallet. *)
Lemma payout_not_first_hex_candidate :
  let db := sample_db [sample_tier 10 3 0] in
  _find_payout_address db odd_event = odd_address
  /\ spec_valid_address odd_address = false
  /\ spec_resolve db odd_event = Some sample_wallet
  /\ _find_payout_address db second_field_event = sample_wallet
  /\ spec_resolve db second_field_event = Some sample_payer.
Proof. vm_compute. repeat split. Qed.

(** * Further properties *)

(** ** Addresses *)

Lemma strip_empty : strip "" = "".
Proof. reflexivity. Qed.

Lemma norm_addr_cases (a : option string) :
  (_norm_addr a = "" /\ addr_shape (strip (or_empty a)) = false)
  \/ (_norm_addr a = strip (or_empty a)
      /\ addr_shape (strip (or_empty a)) = true).
Proof.
  unfold _norm_addr. destruct (addr_shape (strip (or_empty a))); auto.
Qed.

Lemma addr_shape_nonempty (s : string) : addr_shape s = true -> nonempty s = true.
Proof. destruct s; [discriminate|reflexivity]. Qed.

(** [_norm_addr] gives either nothing or a trimmed 42-character string
    that begins with ["0x"], and normalising its result again gives the
    same result. *)
Theorem norm_addr_normal (a : option string) :
  (_norm_addr a = "" \/ addr_shape (_norm_addr a) = true)
  /\ strip (_norm_addr a) = _norm_addr a
  /\ _norm_addr (Some (_norm_addr a)) = _norm_addr a.
Proof.
  destruct (norm_addr_cases a) as [[-> _]|[Hn Hs]].
  - repeat split; auto.
  - rewrite Hn. split; [now right|].
    split; [apply strip_idem|].
    rewrite norm_addr_some, strip_idem. now rewrite Hs.
Qed.

Lemma first_norm_cases (vals : list (option string)) :
  first_norm vals = "" \/ addr_shape (first_norm vals) = true.
Proof.
  induction vals as [|v vals IH]; [now left|]. cbn [first_norm].
  destruct (nonempty (_norm_addr v)) eqn:Hv; [|exact IH].
  destruct (norm_addr_cases v) as [[He _]|[He Hs]]; [|right; now rewrite He].
  rewrite He in Hv. discriminate Hv.
Qed.

Lemma default_payout_address_shape :
  _norm_addr (Some DEFAULT_PAYOUT_ADDRESS) = DEFAULT_PAYOUT_ADDRESS
  /\ addr_shape DEFAULT_PAYOUT_ADDRESS = true.
Proof. split; reflexivity. Qed.

Lemma find_payout_address_shape (db : DB) (ev : event) :
  addr_shape (_find_payout_address db ev) = true.
Proof.
  unfold _find_payout_address. fold (event_fields ev).
  destruct (nonempty (_norm_addr (Some (_pick (event_fields ev))))) eqn:He.
  - pose proof (norm_addr_picked _ He) as Hp.
    destruct (norm_addr_cases (Some (_pick (event_fields ev))))
      as [[Hn _]|[Hn Hs]].
    + rewrite Hn in He. discriminate He.
    + rewrite Hp in Hn. now rewrite Hn.
  - rewrite !collection_payout_fields.
    destruct (nonempty (first_norm (collection_fields _ (organizers db))))
      eqn:Ho.
    + destruct (first_norm_cases
                  (collection_fields (_to_oid_field
                     (py_or (py_or (ev_organizer_id ev)
                                   (ev_organizer_user_id ev))
                            (ev_organizer ev))) (organizers db)))
        as [Hn|Hs]; [|exact Hs].
      rewrite Hn in Ho. discriminate Ho.
    + destruct (nonempty (first_norm (collection_fields _ (users db))))
        eqn:Hu.
      * destruct (first_norm_cases
                    (collection_fields (_to_oid_field
                       (py_or (py_or (ev_organizer_id ev)
                                     (ev_organizer_user_id ev))
                              (ev_organizer ev))) (users db)))
          as [Hn|Hs]; [|exact Hs].
        rewrite Hn in Hu. discriminate Hu.
      * reflexivity.
Qed.

(** The payout lookup always finds an address: whatever the event, the
    organizer and the user documents hold, the result begins with ["0x"]
    and is 42 characters long, because the hard-coded fallback is. *)
Theorem find_payout_address_well_formed (db : DB) (ev : event) :
  addr_shape (_find_payout_address db ev) = true
  /\ nonempty (_find_payout_address db ev) = true.
Proof.
  split; [apply find_payout_address_shape|].
  apply addr_shape_nonempty, find_payout_address_shape.
Qed.

(** [_pick] gives the first value that is not blank, trimmed: nothing
    exactly when every value is missing or blank, and otherwise the
    trimmed form of a value before which all values are missing or
    blank. *)
Theorem pick_first_non_blank (vals : list (option string)) :
  (_pick vals = "" <-> Forall (fun v => strip (or_empty v) = "") vals)
  /\ (_pick vals <> "" ->
      exists before v after,
        vals = before ++ Some v :: after
        /\ Forall (fun w => strip (or_empty w) = "") before
        /\ _pick vals = strip v).
Proof.
  induction vals as [|[v|] vals [IH1 IH2]].
  - split; [split; [constructor|reflexivity]|]. now intros [].
  - cbn [_pick]. destruct (strip v) as [|c s] eqn:Hv; cbn [nonempty].
    + split.
      * split.
        -- intros H. constructor; [exact Hv|now apply IH1].
        -- intros H. apply IH1. now inversion H.
      * intros H. destruct (IH2 H) as (before & w & after & -> & Hb & Hw).
        exists (Some v :: before), w, after.
        split; [reflexivity|]. split; [|exact Hw].
        constructor; [exact Hv|exact Hb].
    + split.
      * split; [discriminate|].
        intros H. inversion H as [|? ? Hh _]. change (strip v = "") in Hh.
        rewrite Hv in Hh. discriminate Hh.
      * intros _. exists [], v, vals.
        split; [reflexivity|]. split; [constructor|now symmetry].
  - cbn [_pick]. split.
    + split.
      * intros H. constructor; [reflexivity|now apply IH1].
      * intros H. apply IH1. now inversion H.
    + intros H. destruct (IH2 H) as (before & w & after & -> & Hb & Hw).
      exists (None :: before), w, after.
      split; [reflexivity|]. split; [|exact Hw].
      constructor; [reflexivity|exact Hb].
Qed.

(** ** The sales window is an interval *)

Lemma dt_ltb_lex (a b : datetime) :
  dt_ltb a b = true <->
  dt_year a < dt_year b
  \/ (dt_year a = dt_year b
      /\ (dt_month a < dt_month b
          \/ (dt_month a = dt_month b
              /\ (dt_day a < dt_day b
                  \/ (dt_day a = dt_day b /\ dt_usec a < dt_usec b))))).
Proof.
  unfold dt_ltb.
  destruct (Z.ltb_spec (dt_year a) (dt_year b));
    destruct (Z.eqb_spec (dt_year a) (dt_year b));
    destruct (Z.ltb_spec (dt_month a) (dt_month b));
    destruct (Z.eqb_spec (dt_month a) (dt_month b));
    destruct (Z.ltb_spec (dt_day a) (dt_day b));
    destruct (Z.eqb_spec (dt_day a) (dt_day b));
    destruct (Z.ltb_spec (dt_usec a) (dt_usec b));
    cbn [orb andb]; split; first [reflexivity | discriminate | lia].
Qed.

Lemma dt_not_ltb_trans (a b c : datetime) :
  dt_ltb b a = false -> dt_ltb c b = false -> dt_ltb c a = false.
Proof.
  intros Hab Hbc.
  apply not_true_iff_false. apply not_true_iff_false in Hab, Hbc.
  rewrite dt_ltb_lex in *. lia.
Qed.

(** If a tier is on sale at two instants, it is on sale at every instant
    between them. *)
Theorem sales_window_convex (t : tier) (a b c : datetime) :
  dt_ltb b a = false ->
  dt_ltb c b = false ->
  _tier_sales_open t a = Some true ->
  _tier_sales_open t c = Some true ->
  _tier_sales_open t b = Some true.
Proof.
  intros Hab Hbc. unfold _tier_sales_open.
  destruct (_parse_sales_bound (t_sales_start t) KStart) as [[s|]|];
    [| |discriminate];
    (destruct (_parse_sales_bound (t_sales_end t) KEnd) as [[e|]|];
     [| |discriminate]).
  - destruct (dt_ltb a s) eqn:Has; [discriminate|].
    destruct (dt_ltb e a); [discriminate|]. intros _.
    destruct (dt_ltb c s); [discriminate|].
    destruct (dt_ltb e c) eqn:Hec; [discriminate|]. intros _.
    now rewrite (dt_not_ltb_trans s a b Has Hab),
      (dt_not_ltb_trans b c e Hbc Hec).
  - destruct (dt_ltb a s) eqn:Has; [discriminate|]. intros _ _.
    now rewrite (dt_not_ltb_trans s a b Has Hab).
  - destruct (dt_ltb e a); [discriminate|]. intros _.
    destruct (dt_ltb e c) eqn:Hec; [discriminate|]. intros _.
    now rewrite (dt_not_ltb_trans b c e Hbc Hec).
  - reflexivity.
Qed.

Lemma sales_window_convex_witness :
  _tier_sales_open closed_tier
    {| dt_year := 2025; dt_month := 3; dt_day := 15; dt_usec := 7 |}
  = Some true.
Proof.
  apply (sales_window_convex closed_tier
           {| dt_year := 2024; dt_month := 12; dt_day := 31; dt_usec := 0 |}
           {| dt_year := 2025; dt_month := 3; dt_day := 15; dt_usec := 7 |}
           {| dt_year := 2025; dt_month := 6; dt_day := 30; dt_usec := 0 |});
    reflexivity.
Defined.

(** Once the end of sales has passed, the tier is never on sale again;
    and it is not on sale at any instant before the start of sales.  The
    call then answers that the tier is closed, unless parsing the other
    bound raises. *)
Theorem sales_closed_outside_window (t : tier) (now later : datetime) :
  dt_ltb later now = false ->
  (forall e, _parse_sales_bound (t_sales_end t) KEnd = Some (Some e) ->
             dt_ltb e now = true ->
             _tier_sales_open t later
             = match _parse_sales_bound (t_sales_start t) KStart with
               | Some _ => Some false
               | None => None
               end)
  /\ (forall s, _parse_sales_bound (t_sales_start t) KStart = Some (Some s) ->
                dt_ltb later s = true ->
                _tier_sales_open t now
                = match _parse_sales_bound (t_sales_end t) KEnd with
                  | Some _ => Some false
                  | None => None
                  end).
Proof.
  intros Hle. split.
  - intros e He Hpast. unfold _tier_sales_open. rewrite He.
    assert (Hl : dt_ltb e later = true).
    { apply not_true_iff_false in Hle. rewrite dt_ltb_lex in *. lia. }
    rewrite Hl.
    destruct (_parse_sales_bound (t_sales_start t) KStart) as [s|];
      [|reflexivity].
    now destruct (match s with Some _ => _ | None => _ end).
  - intros s Hs Hearly. unfold _tier_sales_open. rewrite Hs.
    assert (Hl : dt_ltb now s = true).
    { apply not_true_iff_false in Hle. rewrite dt_ltb_lex in *. lia. }
    rewrite Hl.
    now destruct (_parse_sales_bound (t_sales_end t) KEnd).
Qed.

Lemma sales_closed_outside_window_witness :
  _tier_sales_open closed_tier
    {| dt_year := 2026; dt_month := 1; dt_day := 1; dt_usec := 0 |}
  = Some false.
Proof.
  apply (proj1 (sales_closed_outside_window closed_tier sample_now
                  {| dt_year := 2026; dt_month := 1; dt_day := 1;
                     dt_usec := 0 |} eq_refl)
           {| dt_year := 2025; dt_month := 6; dt_day := 30; dt_usec := 0 |});
    reflexivity.
Defined.

(** ** What the quote page answers *)

Lemma in_bounds_found (tier_idx : Z) (tiers : list tier) :
  in_bounds tier_idx tiers = true ->
  exists t, tiers !! Z.to_nat tier_idx = Some t.
Proof.
  unfold in_bounds. intros H. apply negb_true_iff, orb_false_iff in H as [H1 H2].
  apply Z.ltb_ge in H1. apply Z.leb_gt in H2.
  destruct (tiers !! Z.to_nat tier_idx) as [t|] eqn:Ht; [now exists t|].
  apply lookup_ge_None in Ht. lia.
Qed.

Lemma active_network :
  NETS ACTIVE_NETWORK
  = Some {| chain_id := 8453; chain_id_hex := "0x2105"; chain_name := "Base";
            usdc := "0x833589fCD6eDb6E08f4c7C32D4f71b54bdA02913" |}.
Proof. reflexivity. Qed.

Lemma clamp_quantity_range (qty_req max_allowed : Z) :
  1 <= max_allowed ->
  1 <= clamp_quantity qty_req max_allowed <= max_allowed
  /\ (1 <= qty_req <= max_allowed -> clamp_quantity qty_req max_allowed = qty_req).
Proof.
  intros Hm. unfold clamp_quantity.
  case_eqb qty_req 0;
    match goal with
    | |- context [if ?a <? ?b then ?a else ?b] => case_ltb a b
    end;
    match goal with
    | |- context [?a <? 1] => case_ltb a 1
    end; lia.
Qed.

(** [start] from the tier on, for a logged-in buyer whose arguments
    convert and name a tier of a published event. *)
Lemma start_from_tier u args now db tier_idx qty_req oid ev t :
  a_tier_idx args = Some tier_idx ->
  a_quantity args = Some qty_req ->
  _to_oid (a_event_id args) = Some oid ->
  find_published db oid = Some ev ->
  in_bounds tier_idx (ev_tiers ev) = true ->
  ev_tiers ev !! Z.to_nat tier_idx = Some t ->
  let avail := available (_tier_availability db (oid_str oid) tier_idx t) in
  let max_allowed :=
    if 0 <? t_per_order_limit t then t_per_order_limit t else avail in
  let qty := clamp_quantity qty_req max_allowed in
  start (Some u) args now db
  = match _tier_sales_open t now with
    | None => Uncaught500
    | Some false =>
        Redirect "public.event_profile" "Sales window closed for this tier."
    | Some true =>
        if avail <=? 0
        then Redirect "public.event_profile" "This tier is sold out."
        else match total_amount (or_zero (t_price t)) qty with
             | None => Uncaught500
             | Some amount =>
                 Checkout {| q_event_id := a_event_id args;
                             q_tier_idx := tier_idx; q_quantity := qty;
                             q_unit_price := or_zero (t_price t);
                             q_amount := amount; q_max_allowed := max_allowed;
                             q_payout := _find_payout_address db ev;
                             q_chain_id := 8453;
                             q_usdc := "0x833589fCD6eDb6E08f4c7C32D4f71b54bdA02913" |}
             end
    end.
Proof.
  intros Hi Hq Ho Hf Hb Ht. cbv zeta.
  unfold start, bind, some_or, require. rewrite Hi, Hq, Ho, Hf, Hb, Ht.
  destruct (_tier_sales_open t now) as [[|]|]; [|reflexivity|reflexivity].
  destruct (available _ <=? 0); [reflexivity|]. cbn [negb].
  destruct (total_amount _ _) as [amount|]; [|reflexivity].
  rewrite (proj2 (conj I (addr_shape_nonempty _ (find_payout_address_shape db ev)))).
  rewrite active_network. reflexivity.
Qed.

(** What a quote says about the request it answers. *)
Lemma start_checkout_inv uid args now db q :
  start uid args now db = Checkout q ->
  exists tier_idx qty_req oid ev t,
    a_tier_idx args = Some tier_idx
    /\ a_quantity args = Some qty_req
    /\ _to_oid (a_event_id args) = Some oid
    /\ find_published db oid = Some ev
    /\ in_bounds tier_idx (ev_tiers ev) = true
    /\ ev_tiers ev !! Z.to_nat tier_idx = Some t
    /\ _tier_sales_open t now = Some true
    /\ 0 < available (_tier_availability db (oid_str oid) tier_idx t)
    /\ q_event_id q = a_event_id args
    /\ q_tier_idx q = tier_idx
    /\ q_max_allowed q
       = (if 0 <? t_per_order_limit t then t_per_order_limit t
          else available (_tier_availability db (oid_str oid) tier_idx t))
    /\ q_quantity q = clamp_quantity qty_req (q_max_allowed q)
    /\ q_unit_price q = or_zero (t_price t)
    /\ total_amount (q_unit_price q) (q_quantity q) = Some (q_amount q)
    /\ q_payout q = _find_payout_address db ev
    /\ q_chain_id q = 8453.
Proof.
  destruct uid as [u|]; [|discriminate].
  destruct (a_tier_idx args) as [tier_idx|] eqn:Hi;
    [|unfold start, bind, some_or; rewrite Hi; discriminate].
  destruct (a_quantity args) as [qty_req|] eqn:Hq;
    [|unfold start, bind, some_or; rewrite Hi, Hq; discriminate].
  destruct (_to_oid (a_event_id args)) as [oid|] eqn:Ho;
    [|unfold start, bind, some_or; rewrite Hi, Hq, Ho; discriminate].
  destruct (find_published db oid) as [ev|] eqn:Hf;
    [|unfold start, bind, some_or; rewrite Hi, Hq, Ho, Hf; discriminate].
  destruct (in_bounds tier_idx (ev_tiers ev)) eqn:Hb;
    [|unfold start, bind, some_or, require; rewrite Hi, Hq, Ho, Hf, Hb;
      discriminate].
  destruct (in_bounds_found _ _ Hb) as [t Ht].
  rewrite (start_from_tier u args now db tier_idx qty_req oid ev t
             Hi Hq Ho Hf Hb Ht).
  destruct (_tier_sales_open t now) as [[|]|] eqn:Hopen;
    [|discriminate|discriminate].
  destruct (available _ <=? 0) eqn:Hav; [discriminate|].
  apply Z.leb_gt in Hav.
  destruct (total_amount _ _) as [amount|] eqn:Ha; [|discriminate].
  intros Hstart. exists tier_idx, qty_req, oid, ev, t.
  injection Hstart as <-.
  repeat split; first [assumption | reflexivity].
Qed.

(** [start] answers in one of eight ways.  It never reports a missing
    payout wallet, although it has a branch for that.  It ends in an
    uncaught exception in two cases only: when parsing a sales bound of
    the tier raises, and when a quantity of more than one unit, not above
    the one asked for, is too large to convert to a float. *)
Theorem start_outcomes uid args now db :
  let r := start uid args now db in
  r = Redirect "login.login" "Please log in to continue."
  \/ r = Redirect "public.browse_events" "Invalid selection."
  \/ r = Abort 404
  \/ r = Redirect "public.event_profile" "Please select a valid ticket tier."
  \/ r = Redirect "public.event_profile" "Sales window closed for this tier."
  \/ r = Redirect "public.event_profile" "This tier is sold out."
  \/ (r = Uncaught500
      /\ ((exists tier_idx oid ev t,
             a_tier_idx args = Some tier_idx
             /\ _to_oid (a_event_id args) = Some oid
             /\ find_published db oid = Some ev
             /\ ev_tiers ev !! Z.to_nat tier_idx = Some t
             /\ _tier_sales_open t now = None)
          \/ (exists qty_req qty,
                a_quantity args = Some qty_req
                /\ 1 < qty <= qty_req
                /\ int_to_float qty = None)))
  \/ (exists q, r = Checkout q).
Proof.
  cbv zeta.
  destruct uid as [u|]; [|left; reflexivity].
  destruct (a_tier_idx args) as [tier_idx|] eqn:Hi;
    [|right; left; unfold start, bind, some_or; now rewrite Hi].
  destruct (a_quantity args) as [qty_req|] eqn:Hq;
    [|right; left; unfold start, bind, some_or; now rewrite Hi, Hq].
  destruct (_to_oid (a_event_id args)) as [oid|] eqn:Ho;
    [|right; right; left; unfold start, bind, some_or; now rewrite Hi, Hq, Ho].
  destruct (find_published db oid) as [ev|] eqn:Hf;
    [|right; right; left; unfold start, bind, some_or;
      now rewrite Hi, Hq, Ho, Hf].
  destruct (in_bounds tier_idx (ev_tiers ev)) eqn:Hb;
    [|do 3 right; left; unfold start, bind, some_or, require;
      now rewrite Hi, Hq, Ho, Hf, Hb].
  destruct (in_bounds_found _ _ Hb) as [t Ht].
  rewrite (start_from_tier u args now db tier_idx qty_req oid ev t
             Hi Hq Ho Hf Hb Ht).
  destruct (_tier_sales_open t now) as [[|]|] eqn:Hopen;
    [|do 4 right; now left|].
  - destruct (available _ <=? 0); [do 5 right; now left|].
    destruct (total_amount _ _) as [amount|] eqn:Ha.
    + do 7 right. now eexists.
    + do 6 right. left. split; [reflexivity|]. right.
      unfold total_amount in Ha.
      destruct (int_to_float _) eqn:Hc; [discriminate|].
      match type of Hc with
      | int_to_float (clamp_quantity _ ?m) = None =>
          set (max_allowed := m) in *
      end.
      assert (Hne : clamp_quantity qty_req max_allowed <> 1).
      { intros E. rewrite E in Hc. discriminate Hc. }
      exists qty_req, (clamp_quantity qty_req max_allowed).
      split; [reflexivity|]. split; [|exact Hc].
      revert Hne. clear Hc. unfold clamp_quantity.
      case_eqb qty_req 0;
        match goal with
        | |- context [if ?a <? ?b then ?a else ?b] => case_ltb a b
        end;
        match goal with
        | |- context [?a <? 1] => case_ltb a 1
        end; lia.
  - do 6 right. left. split; [reflexivity|]. left.
    exists tier_idx, oid, ev, t. repeat split; assumption.
Qed.

(** A quote that [start] hands out is for at least one unit and at most
    [max_allowed]; its amount is the unit price times the quantity,
    rounded to six decimals; its payout address is well formed; and it
    names the configured chain.  A request for a quantity within
    [1..max_allowed] is quoted as asked. *)
Theorem start_quote_well_formed uid args now db q :
  start uid args now db = Checkout q ->
  1 <= q_quantity q <= q_max_allowed q
  /\ total_amount (q_unit_price q) (q_quantity q) = Some (q_amount q)
  /\ addr_shape (q_payout q) = true
  /\ q_chain_id q = configured_chain_id
  /\ q_event_id q = a_event_id args
  /\ a_tier_idx args = Some (q_tier_idx q)
  /\ (forall qty_req, a_quantity args = Some qty_req ->
        1 <= qty_req <= q_max_allowed q -> q_quantity q = qty_req).
Proof.
  intros Hstart.
  destruct (start_checkout_inv _ _ _ _ _ Hstart)
    as (tier_idx & qty_req & oid & ev & t & Hi & Hq & Ho & Hf & Hb & Ht
        & Hopen & Hav & He & Hti & Hmax & Hqty & Hprice & Ha & Hpay & Hch).
  assert (Hm : 1 <= q_max_allowed q).
  { rewrite Hmax. case_ltb 0 (t_per_order_limit t); lia. }
  destruct (clamp_quantity_range qty_req _ Hm) as [Hr Hid].
  rewrite Hqty. split; [exact Hr|]. rewrite <- Hqty.
  split; [exact Ha|].
  split; [rewrite Hpay; apply find_payout_address_shape|].
  split; [exact Hch|]. split; [exact He|]. split; [now rewrite Hti|].
  intros q' Hq'. rewrite Hq in Hq'. injection Hq' as <-.
  intros Hin. rewrite Hqty. now apply Hid.
Qed.

Lemma start_quote_well_formed_witness :
  1 <= 3 <= 3
  /\ total_amount 10 3 = Some 30%float
  /\ addr_shape sample_wallet = true.
Proof.
  destruct (start_quote_well_formed (Some "u1")
              {| a_event_id := sample_event_id; a_tier_idx := Some 0;
                 a_quantity := Some 5 |} sample_now
              (sample_db [sample_tier 10 3 0])
              {| q_event_id := sample_event_id; q_tier_idx := 0;
                 q_quantity := 3; q_unit_price := 10; q_amount := 30;
                 q_max_allowed := 3; q_payout := sample_wallet;
                 q_chain_id := 8453;
                 q_usdc := "0x833589fCD6eDb6E08f4c7C32D4f71b54bdA02913" |}
              eq_refl) as (H1 & H2 & H3 & _).
  exact (conj H1 (conj H2 H3)).
Defined.

(** ** What the completion callback answers *)



(** ** What a completion changes *)

(** A completion changes the ticket count of one tier at most: when it
    succeeds, the tier it names gains [quantity] tickets; every other
    count, and every count when it fails, stays as it was. *)
Theorem complete_sold_delta uid data now_dt id db oid tier_idx :
  let out := complete uid data now_dt id db in
  let named :=
    match _to_oid (eventId data) with
    | Some o => String.eqb o oid && (tierIdx data =? tier_idx)
    | None => false
    end in
  sold_for (fst out) oid tier_idx
  = sold_for db oid tier_idx
    + (if is_okay (snd out) && named then quantity data else 0).
Proof.
  cbv zeta. destruct (checks uid data db) as [r|o] eqn:Hc.
  - rewrite (complete_rejected _ _ _ _ _ _ Hc). cbn [fst snd].
    rewrite (checks_rejects _ _ _ _ Hc). cbn [andb]. lia.
  - rewrite (complete_checked _ _ _ _ _ _ Hc).
    destruct (storable data); cbn [fst snd success is_okay andb]; [|lia].
    pose proof (checks_quantity _ _ _ _ Hc) as [Hq Hq'].
    rewrite sold_for_settled by lia.
    apply checks_accepts in Hc
      as (u & o' & ev & t & e & _ & _ & -> & _ & _ & _ & _ & _ & _ & ->).
    reflexivity.
Qed.

Lemma complete_keeps_amounts_step uid data now_dt id db :
  Forall amount_consistent (payments db) ->
  Forall amount_consistent (payments (fst (complete uid data now_dt id db))).
Proof.
  intros Hall. destruct (checks uid data db) as [r|o] eqn:Hc.
  - now rewrite (complete_rejected _ _ _ _ _ _ Hc).
  - rewrite (complete_checked _ _ _ _ _ _ Hc).
    destruct (storable data); [|exact Hall]. cbn [fst settled payments].
    apply Forall_app. split; [exact Hall|]. constructor; [|constructor].
    apply checks_accepts in Hc
      as (u & oid & ev & t & e & _ & _ & _ & _ & _ & _ & _ & He & _ & ->).
    exact He.
Qed.

(** Every payment written by completions carries the amount
    [round(unit_price * quantity, 6)]: if that holds for the payments in
    the database, it holds after any sequence of completions. *)
Theorem completions_keep_amounts reqs db :
  Forall amount_consistent (payments db) ->
  Forall amount_consistent (payments (fst (serve_in_turn reqs db))).
Proof.
  revert db.
  induction reqs as [|[[[uid data] now_dt] id] reqs IH]; intros db Hall;
    [exact Hall|].
  cbn [serve_in_turn].
  pose proof (complete_keeps_amounts_step uid data now_dt id db Hall) as Hs.
  destruct (complete uid data now_dt id db) as [db1 r]. cbn [fst] in Hs.
  specialize (IH db1 Hs). now destruct (serve_in_turn reqs db1).
Qed.

Lemma completions_keep_amounts_witness :
  Forall amount_consistent
    (payments (fst (serve_in_turn
                      [(Some "u1", sample_claim 2 20, sample_now, sample_id1);
                       (Some "u2", sample_claim 1 10, sample_now, sample_id2)]
                      (sample_db [sample_tier 10 3 0])))).
Proof.
  apply (completions_keep_amounts
           [(Some "u1", sample_claim 2 20, sample_now, sample_id1);
            (Some "u2", sample_claim 1 10, sample_now, sample_id2)]
           (sample_db [sample_tier 10 3 0])).
  constructor.
Defined.

(** ** The ledger stays consistent *)

Lemma count_foreign_tickets db pid :
  ledger_ok db ->
  ~ In pid (map pay_id (payments db)) ->
  count_documents (for_payment (oid_str pid)) (ticket_rows db) = 0.
Proof.
  intros (_ & _ & _ & Hown) Hfresh. unfold count_documents.
  assert (H : List.filter (for_payment (oid_str pid)) (ticket_rows db) = []).
  { induction (ticket_rows db) as [|t rows IH]; [reflexivity|].
    cbn [List.filter]. destruct (for_payment (oid_str pid) t) eqn:Hf.
    - exfalso. destruct (Hown t (or_introl eq_refl)) as (p & Hp & Hid & _).
      apply String.eqb_eq in Hf. apply Hfresh. apply in_map_iff.
      exists p. split; [|exact Hp]. unfold oid_str in *. congruence.
    - apply IH. intros t' Ht'. apply Hown. now right. }
  now rewrite H.
Qed.

Lemma complete_keeps_ledger uid data now_dt id db :
  ledger_ok db ->
  ~ In id (map pay_id (payments db)) ->
  ledger_ok (fst (complete uid data now_dt id db)).
Proof.
  intros Hok Hfresh. destruct (checks uid data db) as [r|o] eqn:Hc.
  - now rewrite (complete_rejected _ _ _ _ _ _ Hc).
  - rewrite (complete_checked _ _ _ _ _ _ Hc).
    destruct (storable data); [|exact Hok]. cbn [fst].
    pose proof (checks_quantity _ _ _ _ Hc) as [Hq _].
    pose proof (count_foreign_tickets db id Hok Hfresh) as Hzero.
    destruct Hok as (Hnd & Htx & Hbatch & Hown).
    unfold ledger_ok. rewrite ticket_rows_settled.
    cbn [settled payments transactions]. rewrite !map_app. cbn [map].
    repeat split.
    + apply List.NoDup_app; [exact Hnd|repeat constructor; intros []|].
      intros x Hx [<-|[]]. now apply Hfresh.
    + now rewrite Htx.
    + intros p Hp. rewrite count_documents_app, count_documents_repeat.
      apply in_app_or in Hp as [Hp|[<-|[]]].
      * rewrite (Hbatch p Hp). unfold for_payment.
        cbn [ticket_doc tk_payment_id].
        destruct (String.eqb (oid_str id) (oid_str (pay_id p))) eqn:He;
          [|lia].
        exfalso. apply String.eqb_eq in He. apply Hfresh, in_map_iff.
        exists p. split; [|exact Hp]. unfold oid_str in He. congruence.
      * cbn [pay_doc pay_id pay_quantity]. rewrite Hzero.
        unfold for_payment. cbn [ticket_doc tk_payment_id].
        rewrite String.eqb_refl. lia.
    + intros t Ht. apply in_app_or in Ht as [Ht|Ht].
      * destruct (Hown t Ht) as (p & Hp & Hrest).
        exists p. split; [apply in_or_app; now left|exact Hrest].
      * apply repeat_spec in Ht. subst t.
        exists (pay_doc o now_dt id).
        split; [apply in_or_app; right; now left|]. repeat split.
Qed.

Lemma complete_payment_ids uid data now_dt id db x :
  In x (map pay_id (payments (fst (complete uid data now_dt id db)))) ->
  In x (map pay_id (payments db)) \/ x = id.
Proof.
  destruct (checks uid data db) as [r|o] eqn:Hc.
  - rewrite (complete_rejected _ _ _ _ _ _ Hc). now left.
  - rewrite (complete_checked _ _ _ _ _ _ Hc).
    destruct (storable data); [|now left]. cbn [fst settled payments].
    rewrite map_app. intros H. apply in_app_or in H as [H|[<-|[]]]; auto.
Qed.

(** Completions under distinct new ids keep the ledger consistent:
    payment ids stay distinct, the transactions repeat the payments one
    for one, every payment has exactly [quantity] tickets, and every
    ticket belongs to a payment whose event, tier and unit price it
    repeats. *)
Theorem completions_keep_ledger reqs db :
  ledger_ok db ->
  List.NoDup (map inserted_id_of reqs) ->
  (forall r, In r reqs -> ~ In (inserted_id_of r) (map pay_id (payments db))) ->
  ledger_ok (fst (serve_in_turn reqs db)).
Proof.
  revert db.
  induction reqs as [|[[[uid data] now_dt] id] reqs IH];
    intros db Hok Hnd Hfresh; [exact Hok|].
  cbn [serve_in_turn].
  pose proof (complete_keeps_ledger uid data now_dt id db Hok
                (Hfresh _ (or_introl eq_refl))) as Hstep.
  pose proof (complete_payment_ids uid data now_dt id db) as Hids.
  destruct (complete uid data now_dt id db) as [db1 r]. cbn [fst] in *.
  cbn [map] in Hnd. apply List.NoDup_cons_iff in Hnd as [Hid Hnd].
  assert (Hfresh1 : forall r', In r' reqs ->
            ~ In (inserted_id_of r') (map pay_id (payments db1))).
  { intros r' Hr' Hin. destruct (Hids _ Hin) as [Hold|Heq].
    - exact (Hfresh r' (or_intror Hr') Hold).
    - apply Hid. apply in_map_iff. exists r'.
      split; [exact Heq|exact Hr']. }
  specialize (IH db1 Hstep Hnd Hfresh1).
  now destruct (serve_in_turn reqs db1).
Qed.

Lemma sample_ledger_ok tiers : ledger_ok (sample_db tiers).
Proof.
  unfold ledger_ok. cbn. repeat split; try constructor; intros ? [].
Qed.

Lemma completions_keep_ledger_witness :
  ledger_ok
    (fst (serve_in_turn
            [(Some "u1", sample_claim 2 20, sample_now, sample_id1);
             (Some "u2", sample_claim 1 10, sample_now, sample_id2)]
            (sample_db [sample_tier 10 3 0]))).
Proof.
  apply (completions_keep_ledger
           [(Some "u1", sample_claim 2 20, sample_now, sample_id1);
            (Some "u2", sample_claim 1 10, sample_now, sample_id2)]
           (sample_db [sample_tier 10 3 0])).
  - apply sample_ledger_ok.
  - cbn. repeat constructor; [|intros []].
    intros [H|[]]. discriminate H.
  - intros r _ [].
Defined.

(** ** Records are only ever appended *)

Lemma complete_appends uid data now_dt id db :
  let out := complete uid data now_dt id db in
  events (fst out) = events db
  /\ organizers (fst out) = organizers db
  /\ users (fst out) = users db
  /\ exists ps txs tks,
       payments (fst out) = payments db ++ ps
       /\ transactions (fst out) = transactions db ++ txs
       /\ ticket_rows (fst out) = ticket_rows db ++ tks
       /\ length ps = (if is_okay (snd out) then 1 else 0)%nat
       /\ length txs = length ps.
Proof.
  cbv zeta. destruct (checks uid data db) as [r|o] eqn:Hc.
  - rewrite (complete_rejected _ _ _ _ _ _ Hc). cbn [fst snd].
    rewrite (checks_rejects _ _ _ _ Hc). do 3 (split; [reflexivity|]).
    exists [], [], []. now rewrite !app_nil_r.
  - rewrite (complete_checked _ _ _ _ _ _ Hc).
    destruct (storable data); cbn [fst snd].
    + do 3 (split; [reflexivity|]).
      eexists. eexists. eexists. rewrite ticket_rows_settled.
      cbn [settled payments transactions]. repeat split.
    + do 3 (split; [reflexivity|]). exists [], [], [].
      now rewrite !app_nil_r.
Qed.

(** Completions never change or remove a record: after any sequence of
    them the events, organizers and users are as before, the earlier
    payments, transactions and tickets are still there in their places,
    and one payment and one transaction have been added for each request
    that succeeded. *)
Theorem completions_only_append reqs db :
  let db' := fst (serve_in_turn reqs db) in
  let rs := snd (serve_in_turn reqs db) in
  events db' = events db
  /\ organizers db' = organizers db
  /\ users db' = users db
  /\ exists ps txs tks,
       payments db' = payments db ++ ps
       /\ transactions db' = transactions db ++ txs
       /\ ticket_rows db' = ticket_rows db ++ tks
       /\ length ps = length (List.filter is_okay rs)
       /\ length txs = length ps.
Proof.
  cbv zeta. revert db.
  induction reqs as [|[[[uid data] now_dt] id] reqs IH]; intros db.
  - cbn. do 3 (split; [reflexivity|]). exists [], [], [].
    now rewrite !app_nil_r.
  - cbn [serve_in_turn].
    pose proof (complete_appends uid data now_dt id db) as Hs.
    cbv zeta in Hs.
    destruct (complete uid data now_dt id db) as [db1 r]. cbn [fst snd] in Hs.
    specialize (IH db1).
    destruct (serve_in_turn reqs db1) as [db2 rs]. cbn [fst snd] in *.
    destruct Hs as (He & Ho & Hu & ps & txs & tks & Hp & Ht & Hk & Hl & Hl').
    destruct IH as (He2 & Ho2 & Hu2 & ps2 & txs2 & tks2 & Hp2 & Ht2 & Hk2
                    & Hl2 & Hl2').
    split; [congruence|]. split; [congruence|]. split; [congruence|].
    exists (ps ++ ps2), (txs ++ txs2), (tks ++ tks2).
    rewrite Hp2, Ht2, Hk2, Hp, Ht, Hk, <- !app_assoc, !length_app.
    repeat split; [|lia].
    cbn [List.filter]. destruct (is_okay r); cbn [length]; lia.
Qed.

(** ** From the quote to the completion *)




(** ** Events that are not published *)

(** An event that is stored but not published is treated as missing by
    every handler: the event page, the buy form and [start] abort with
    404, and [complete] answers [not_found] and writes nothing. *)
Theorem unpublished_event_is_not_found db oid ev :
  events db !! oid = Some ev ->
  String.eqb (ev_status ev) "published" = false ->
  (forall event_id now,
      _to_oid event_id = Some oid ->
      event_profile event_id now db = ProfileAbort 404)
  /\ (forall u form now,
        _to_oid (a_event_id form) = Some oid ->
        buy_tickets (Some u) form now db = BuyAbort 404)
  /\ (forall u args now tier_idx qty_req,
        a_tier_idx args = Some tier_idx ->
        a_quantity args = Some qty_req ->
        _to_oid (a_event_id args) = Some oid ->
        start (Some u) args now db = Abort 404)
  /\ (forall u data now_dt id,
        payload_ok data = true ->
        _to_oid (eventId data) = Some oid ->
        complete (Some u) data now_dt id db = (db, Err "not_found" 404)).
Proof.
  intros Hev Hst.
  assert (Hf : find_published db oid = None).
  { unfold find_published. now rewrite Hev, Hst. }
  repeat split.
  - intros event_id now Ho.
    unfold event_profile, bind, some_or. now rewrite Ho, Hf.
  - intros u form now Ho.
    unfold buy_tickets, bind, some_or. now rewrite Ho, Hf.
  - intros u args now tier_idx qty_req Hi Hq Ho.
    unfold start, bind, some_or. now rewrite Hi, Hq, Ho, Hf.
  - intros u data now_dt id Hp Ho. apply complete_rejected.
    unfold checks, bind, some_or, require. now rewrite Hp, Ho, Hf.
Qed.

Lemma unpublished_event_is_not_found_witness :
  event_profile sample_event_id sample_now draft_db = ProfileAbort 404
  /\ start (Some "u1")
       {| a_event_id := sample_event_id; a_tier_idx := Some 0;
          a_quantity := Some 1 |} sample_now draft_db = Abort 404
  /\ complete (Some "u1") (sample_claim 1 10) sample_now sample_id1 draft_db
     = (draft_db, Err "not_found" 404).
Proof.
  destruct (unpublished_event_is_not_found draft_db sample_event_id
              draft_event eq_refl eq_refl) as (Hp & _ & Hs & Hc).
  split; [exact (Hp sample_event_id sample_now eq_refl)|].
  split.
  - exact (Hs "u1"
             {| a_event_id := sample_event_id; a_tier_idx := Some 0;
                a_quantity := Some 1 |} sample_now 0 1
             eq_refl eq_refl eq_refl).
  - exact (Hc "u1" (sample_claim 1 10) sample_now sample_id1
             eq_refl eq_refl).
Defined.

(** ** Whose records a completion writes *)

Lemma count_documents_one {A : Type} (q : A -> bool) (x : A) :
  count_documents q [x] = if q x then 1 else 0.
Proof. unfold count_documents. cbn. now destruct (q x). Qed.

(** What a completion writes is filed under the buyer's session id.
    Under the filter [{"attendee_id": who}] of the attendee pages, a
    successful completion by [who] adds [quantity] tickets, one payment
    and one transaction; a completion by anybody else, or one that
    fails, adds nothing. *)
Theorem complete_files_under_buyer uid data now_dt id db who :
  let out := complete uid data now_dt id db in
  let mine :=
    is_okay (snd out)
    && match uid with Some u => String.eqb u who | None => false end in
  count_documents (ticket_of_attendee who) (ticket_rows (fst out))
  = count_documents (ticket_of_attendee who) (ticket_rows db)
    + (if mine then quantity data else 0)
  /\ count_documents (payment_of_attendee who) (payments (fst out))
     = count_documents (payment_of_attendee who) (payments db)
       + (if mine then 1 else 0)
  /\ count_documents (transaction_of_attendee who) (transactions (fst out))
     = count_documents (transaction_of_attendee who) (transactions db)
       + (if mine then 1 else 0).
Proof.
  cbv zeta. destruct (checks uid data db) as [r|o] eqn:Hc.
  - rewrite (complete_rejected _ _ _ _ _ _ Hc). cbn [fst snd].
    rewrite (checks_rejects _ _ _ _ Hc). cbn [andb]. lia.
  - rewrite (complete_checked _ _ _ _ _ _ Hc).
    destruct (storable data); cbn [fst snd success is_okay andb]; [|lia].
    pose proof (checks_quantity _ _ _ _ Hc) as [Hq Hq'].
    rewrite ticket_rows_settled. cbn [settled payments transactions andb].
    rewrite !count_documents_app, count_documents_repeat,
      !count_documents_one.
    unfold ticket_of_attendee, payment_of_attendee, transaction_of_attendee.
    cbn [ticket_doc pay_doc tx_doc tk_attendee_id pay_attendee_id
         tx_attendee_id].
    apply checks_accepts in Hc
      as (u & oid & ev & t & e & -> & _ & _ & _ & _ & _ & _ & _ & _ & ->).
    cbn [make_order o_uid o_qty].
    destruct (String.eqb u who); lia.
Qed.

(** ** From the buy form to the quote *)

(** [buy_tickets] from the tier on. *)
Lemma buy_from_tier u form now db tier_idx qty oid ev t :
  a_tier_idx form = Some tier_idx ->
  a_quantity form = Some qty ->
  _to_oid (a_event_id form) = Some oid ->
  find_published db oid = Some ev ->
  in_bounds tier_idx (ev_tiers ev) = true ->
  ev_tiers ev !! Z.to_nat tier_idx = Some t ->
  let avail := available (_tier_availability db (oid_str oid) tier_idx t) in
  let per_order :=
    if t_per_order_limit t =? 0 then avail else t_per_order_limit t in
  buy_tickets (Some u) form now db
  = match _tier_sales_open t now with
    | None => BuyUncaught500
    | Some false =>
        BuyRedirect "public.event_profile"
          "Sales window closed for this tier."
    | Some true =>
        if (qty <=? 0) || (per_order <? qty) || (avail <? qty)
        then BuyRedirect "public.event_profile"
               ("Quantity must be between 1 and "
                ++ str_of_int (Z.min per_order avail) ++ ".")%string
        else BuyForward {| a_event_id := a_event_id form;
                           a_tier_idx := Some tier_idx;
                           a_quantity := Some qty |}
    end.
Proof.
  intros Hi Hq Ho Hf Hb Ht. cbv zeta.
  unfold buy_tickets, _tier_sales_open, bind, some_or, require.
  rewrite Hi, Hq, Ho, Hf, Hb, Ht.
  destruct (_parse_sales_bound (t_sales_start t) KStart) as [s|];
    [|reflexivity].
  destruct (_parse_sales_bound (t_sales_end t) KEnd) as [e|]; [|reflexivity].
  destruct (match s with Some s' => dt_ltb now s' | None => false end);
    [reflexivity|].
  destruct (match e with Some e' => dt_ltb e' now | None => false end);
    [reflexivity|].
  cbn [orb negb].
  change (if t_supply t =? 0 then 0
          else Z.max 0 (t_supply t
                        - match tickets db with
                          | Some rows =>
                              count_documents
                                (ticket_query (oid_str oid) tier_idx) rows
                          | None => 0
                          end))
    with (available (_tier_availability db (oid_str oid) tier_idx t)).
  now destruct (_ || _).
Qed.

(** What [buy_tickets] lets through, [start] quotes as it is.  A form
    that is forwarded names a tier that is on sale and asks for between
    one unit and the smaller of the per-order limit and the stock; at
    that moment [start] answers the forwarded request with a quote for
    exactly that quantity, unless the quantity is too large to convert
    to a float. *)
Theorem buy_then_start uid form now db args :
  buy_tickets uid form now db = BuyForward args ->
  exists tier_idx qty,
    args = {| a_event_id := a_event_id form; a_tier_idx := Some tier_idx;
              a_quantity := Some qty |}
    /\ a_tier_idx form = Some tier_idx
    /\ a_quantity form = Some qty
    /\ 1 <= qty
    /\ ((start uid args now db = Uncaught500 /\ int_to_float qty = None)
        \/ exists q,
             start uid args now db = Checkout q
             /\ q_quantity q = qty
             /\ q_tier_idx q = tier_idx
             /\ q_quantity q <= q_max_allowed q).
Proof.
  destruct uid as [u|]; [|discriminate].
  destruct (_to_oid (a_event_id form)) as [oid|] eqn:Ho;
    [|unfold buy_tickets, bind, some_or; rewrite Ho; discriminate].
  destruct (find_published db oid) as [ev|] eqn:Hf;
    [|unfold buy_tickets, bind, some_or; rewrite Ho, Hf; discriminate].
  destruct (a_tier_idx form) as [tier_idx|] eqn:Hi;
    [|unfold buy_tickets, bind, some_or; rewrite Ho, Hf, Hi; discriminate].
  destruct (a_quantity form) as [qty|] eqn:Hq;
    [|unfold buy_tickets, bind, some_or; rewrite Ho, Hf, Hi, Hq;
      discriminate].
  destruct (in_bounds tier_idx (ev_tiers ev)) eqn:Hb;
    [|unfold buy_tickets, bind, some_or, require;
      rewrite Ho, Hf, Hi, Hq, Hb; discriminate].
  destruct (in_bounds_found _ _ Hb) as [t Ht].
  rewrite (buy_from_tier u form now db tier_idx qty oid ev t
             Hi Hq Ho Hf Hb Ht).
  destruct (_tier_sales_open t now) as [[|]|] eqn:Hopen;
    [|discriminate|discriminate].
  destruct (_ || _) eqn:Hbad; [discriminate|]. intros [= <-].
  apply orb_false_iff in Hbad as [Hbad Hav].
  apply orb_false_iff in Hbad as [Hpos Hper].
  apply Z.leb_gt in Hpos. apply Z.ltb_ge in Hper, Hav.
  exists tier_idx, qty. do 3 (split; [reflexivity|]). split; [lia|].
  rewrite (start_from_tier u
             {| a_event_id := a_event_id form; a_tier_idx := Some tier_idx;
                a_quantity := Some qty |} now db tier_idx qty oid ev t
             eq_refl eq_refl Ho Hf Hb Ht).
  rewrite Hopen.
  assert (Hpos' : (available (_tier_availability db (oid_str oid) tier_idx t)
                   <=? 0) = false) by (apply Z.leb_gt; lia).
  rewrite Hpos'.
  assert (Hclamp : clamp_quantity qty
                     (if 0 <? t_per_order_limit t then t_per_order_limit t
                      else available (_tier_availability db (oid_str oid)
                                        tier_idx t)) = qty).
  { apply clamp_quantity_range; revert Hper;
      case_eqb (t_per_order_limit t) 0; case_ltb 0 (t_per_order_limit t);
      lia. }
  rewrite Hclamp. unfold total_amount.
  destruct (int_to_float qty) as [f|]; [right|left; now split].
  eexists. split; [reflexivity|].
  cbv beta iota delta [q_quantity q_tier_idx q_max_allowed].
  split; [reflexivity|]. split; [reflexivity|].
  revert Hper. case_eqb (t_per_order_limit t) 0;
    case_ltb 0 (t_per_order_limit t); lia.
Qed.

Lemma buy_then_start_witness :
  quoted_quantity
    (start (Some "u1")
       {| a_event_id := sample_event_id; a_tier_idx := Some 0;
          a_quantity := Some 2 |} sample_now
       (sample_db [sample_tier 10 3 0])) = Some 2.
Proof.
  destruct (buy_then_start (Some "u1")
              {| a_event_id := sample_event_id; a_tier_idx := Some 0;
                 a_quantity := Some 2 |} sample_now
              (sample_db [sample_tier 10 3 0])
              {| a_event_id := sample_event_id; a_tier_idx := Some 0;
                 a_quantity := Some 2 |} eq_refl)
    as (i & n & _ & _ & Hn & _ & [[_ Hov]|(q & Hs & Hq & _)]).
  - injection Hn as <-. vm_compute in Hov. discriminate Hov.
  - injection Hn as <-. cbn [a_event_id] in Hs. rewrite Hs. cbn.
    now rewrite Hq.
Defined.

(** ** The tiers on the event page *)

Lemma first_open_idx_some (vms : list tier_vm) (i : Z) :
  first_open_idx vms = Some i ->
  exists n v,
    vms !! n = Some v
    /\ vm_idx v = i
    /\ vm_sales_open v = true
    /\ 0 < vm_available v
    /\ (forall m v', (m < n)%nat -> vms !! m = Some v' ->
          vm_sales_open v' && (0 <? vm_available v') = false).
Proof.
  induction vms as [|v vms IH]; [discriminate|]. cbn [first_open_idx].
  destruct (vm_sales_open v && (0 <? vm_available v)) eqn:Hv.
  - intros [= <-]. exists 0%nat, v.
    apply andb_true_iff in Hv as [Ho Ha]. apply Z.ltb_lt in Ha.
    repeat split; try assumption. intros m v' Hm. lia.
  - intros H. destruct (IH H) as (n & w & Hn & Hi & Ho & Ha & Hbefore).
    exists (S n), w. repeat split; try assumption.
    intros [|m] v' Hm Hv'.
    + cbn in Hv'. injection Hv' as <-. exact Hv.
    + apply (Hbefore m v'); [lia|exact Hv'].
Qed.

Lemma first_open_idx_none (vms : list tier_vm) :
  first_open_idx vms = None ->
  forall n v, vms !! n = Some v ->
              vm_sales_open v && (0 <? vm_available v) = false.
Proof.
  induction vms as [|v vms IH]; [intros _ n w H; discriminate H|].
  cbn [first_open_idx].
  destruct (vm_sales_open v && (0 <? vm_available v)) eqn:Hv; [discriminate|].
  intros H [|n] w Hw.
  - cbn in Hw. now injection Hw as <-.
  - exact (IH H n w Hw).
Qed.

Lemma find_by_idx (vms : list tier_vm) (k n : nat) (v : tier_vm) :
  (forall m w, vms !! m = Some w -> vm_idx w = Z.of_nat (k + m)) ->
  vms !! n = Some v ->
  List.find (fun tt => vm_idx tt =? Z.of_nat (k + n)) vms = Some v.
Proof.
  revert k n. induction vms as [|w vms IH]; intros k n Hidx Hn;
    [discriminate Hn|].
  cbn [List.find]. destruct n as [|n].
  - cbn in Hn. injection Hn as <-.
    rewrite (Hidx 0%nat w eq_refl), Z.eqb_refl. reflexivity.
  - rewrite (Hidx 0%nat w eq_refl).
    assert (Hne : (Z.of_nat (k + 0) =? Z.of_nat (k + S n)) = false)
      by (apply Z.eqb_neq; lia).
    rewrite Hne. replace (k + S n)%nat with (S k + n)%nat by lia.
    apply IH; [|exact Hn].
    intros m w' Hm. rewrite (Hidx (S m) w' Hm). f_equal. lia.
Qed.

(** An entry of the tier view, and the tier it was built from. *)
Lemma tiers_vm_from_lookup db event_id now k tiers vms n v :
  tiers_vm_from db event_id now k tiers = Some vms ->
  vms !! n = Some v ->
  exists t,
    tiers !! n = Some t
    /\ vm_idx v = Z.of_nat (k + n)
    /\ vm_per_order_limit v = t_per_order_limit t
    /\ vm_available v
       = available (_tier_availability db event_id (Z.of_nat (k + n)) t)
    /\ _tier_sales_open t now = Some (vm_sales_open v).
Proof.
  revert k vms n. induction tiers as [|t tiers IH]; intros k vms n.
  - intros [= <-] Hn. discriminate Hn.
  - cbn [tiers_vm_from].
    destruct (_tier_sales_open t now) as [open|] eqn:Ho; [|discriminate].
    destruct (tiers_vm_from db event_id now (S k) tiers) as [rest|] eqn:Hr;
      [|discriminate].
    intros [= <-]. destruct n as [|n].
    + intros [= <-]. exists t. rewrite Nat.add_0_r.
      repeat split; first [reflexivity | exact Ho].
    + intros Hn. destruct (IH (S k) rest n Hr Hn) as (t' & Ht' & Hrest).
      exists t'. split; [exact Ht'|].
      now replace (k + S n)%nat with (S k + n)%nat by lia.
Qed.

Lemma tiers_vm_from_length db event_id now k tiers vms :
  tiers_vm_from db event_id now k tiers = Some vms ->
  length vms = length tiers.
Proof.
  revert k vms. induction tiers as [|t tiers IH]; intros k vms.
  - now intros [= <-].
  - cbn [tiers_vm_from].
    destruct (_tier_sales_open t now); [|discriminate].
    destruct (tiers_vm_from db event_id now (S k) tiers) as [rest|] eqn:Hr;
      [|discriminate].
    intros [= <-]. cbn [length]. f_equal. exact (IH _ _ Hr).
Qed.

(** The tier view fails exactly when [_tier_sales_open] raises for one of
    the tiers. *)
Lemma tiers_vm_from_none db event_id now k tiers :
  tiers_vm_from db event_id now k tiers = None ->
  exists n t, tiers !! n = Some t /\ _tier_sales_open t now = None.
Proof.
  revert k. induction tiers as [|t tiers IH]; intros k; [discriminate|].
  cbn [tiers_vm_from].
  destruct (_tier_sales_open t now) as [open|] eqn:Ho;
    [|intros _; now exists 0%nat, t].
  destruct (tiers_vm_from db event_id now (S k) tiers) eqn:Hr;
    [discriminate|].
  intros _. destruct (IH _ Hr) as (n & t' & Hn & Ht').
  now exists (S n), t'.
Qed.

Lemma tiers_vm_lookup db event_id now tiers vms n v :
  tiers_vm db event_id now tiers = Some vms ->
  vms !! n = Some v ->
  exists t,
    tiers !! n = Some t
    /\ vm_idx v = Z.of_nat n
    /\ vm_per_order_limit v = t_per_order_limit t
    /\ vm_available v
       = available (_tier_availability db event_id (Z.of_nat n) t)
    /\ _tier_sales_open t now = Some (vm_sales_open v).
Proof. apply (tiers_vm_from_lookup db event_id now 0). Qed.

Lemma tiers_vm_found db event_id now tiers vms n t :
  tiers_vm db event_id now tiers = Some vms ->
  tiers !! n = Some t ->
  exists v, vms !! n = Some v.
Proof.
  intros Hv Ht. apply tiers_vm_from_length in Hv.
  apply lookup_lt_Some in Ht. apply lookup_lt_is_Some. lia.
Qed.

(** The default quantity of a tier view. *)
Lemma default_qty_of_first_open db event_id now tiers vms n v :
  tiers_vm db event_id now tiers = Some vms ->
  first_open_idx vms = Some (Z.of_nat n) ->
  vms !! n = Some v ->
  default_qty_max vms
  = Some (Z.max 1 (Z.min 5 (Z.min (if vm_per_order_limit v =? 0
                                   then vm_available v
                                   else vm_per_order_limit v)
                                  (vm_available v)))).
Proof.
  intros Hvms Hfo Hn. unfold default_qty_max. rewrite Hfo.
  rewrite (find_by_idx _ 0 n v); [reflexivity| |exact Hn].
  intros m w Hm.
  now destruct (tiers_vm_lookup _ _ _ _ _ _ _ Hvms Hm) as (t & _ & -> & _).
Qed.

(** What the event page computes about tiers.  It aborts with 404
    exactly for an id that names no published event.  The tier part ends
    in an uncaught exception exactly when parsing a sales bound of one
    of the tiers raises; the [next(...)] that looks up the preselected
    tier always finds it.  Otherwise it builds one entry per tier; the
    tier it preselects is the first that is on sale and in stock, and
    when there is none it preselects nothing.  The default quantity is
    between 1 and 5 and, for a preselected tier, within its stock. *)
Theorem event_profile_first_open event_id now db :
  match event_profile event_id now db with
  | ProfileAbort code =>
      code = 404
      /\ (forall oid, _to_oid event_id = Some oid ->
                      find_published db oid = None)
  | ProfileUncaught500 =>
      exists oid ev n t,
        _to_oid event_id = Some oid
        /\ find_published db oid = Some ev
        /\ ev_tiers ev !! n = Some t
        /\ _tier_sales_open t now = None
  | ProfileView vms first_open qty_max =>
      exists oid ev,
        _to_oid event_id = Some oid
        /\ find_published db oid = Some ev
        /\ length vms = length (ev_tiers ev)
        /\ (forall n t, ev_tiers ev !! n = Some t ->
                        _tier_sales_open t now <> None)
        /\ 1 <= qty_max <= 5
        /\ match first_open with
           | Some i =>
               exists n t,
                 i = Z.of_nat n
                 /\ ev_tiers ev !! n = Some t
                 /\ _tier_sales_open t now = Some true
                 /\ 0 < available (_tier_availability db (oid_str oid)
                                     (Z.of_nat n) t)
                 /\ qty_max <= available (_tier_availability db (oid_str oid)
                                            (Z.of_nat n) t)
                 /\ (forall m t', (m < n)%nat -> ev_tiers ev !! m = Some t' ->
                       _tier_sales_open t' now = Some false
                       \/ available (_tier_availability db (oid_str oid)
                                       (Z.of_nat m) t') <= 0)
           | None =>
               qty_max = 1
               /\ (forall n t, ev_tiers ev !! n = Some t ->
                     _tier_sales_open t now = Some false
                     \/ available (_tier_availability db (oid_str oid)
                                     (Z.of_nat n) t) <= 0)
           end
  end.
Proof.
  unfold event_profile, bind, some_or.
  destruct (_to_oid event_id) as [oid|] eqn:Ho;
    [|cbn; split; [reflexivity|discriminate]].
  destruct (find_published db oid) as [ev|] eqn:Hf;
    [|cbn; split; [reflexivity|now intros ? [= <-]]].
  destruct (tiers_vm db (oid_str oid) now (ev_tiers ev)) as [vms|] eqn:Hvms.
  2:{ cbn [returned].
      destruct (tiers_vm_from_none _ _ _ _ _ Hvms) as (n & t & Hn & Ht).
      exists oid, ev, n, t. repeat split; assumption. }
  assert (Hparsed : forall n t, ev_tiers ev !! n = Some t ->
            _tier_sales_open t now <> None).
  { intros n t Ht.
    destruct (tiers_vm_found _ _ _ _ _ _ _ Hvms Ht) as [v Hv].
    destruct (tiers_vm_lookup _ _ _ _ _ _ _ Hvms Hv)
      as (t' & Ht' & _ & _ & _ & Hs).
    rewrite Ht in Ht'. injection Ht' as <-. now rewrite Hs. }
  assert (Hclosed : forall n v t, vms !! n = Some v ->
            ev_tiers ev !! n = Some t ->
            vm_sales_open v && (0 <? vm_available v) = false ->
            _tier_sales_open t now = Some false
            \/ available (_tier_availability db (oid_str oid)
                            (Z.of_nat n) t) <= 0).
  { intros n v t Hv Ht Hc.
    destruct (tiers_vm_lookup _ _ _ _ _ _ _ Hvms Hv)
      as (t' & Ht' & _ & _ & Ha & Hs).
    rewrite Ht in Ht'. injection Ht' as <-. rewrite Ha in Hc. rewrite Hs.
    apply andb_false_iff in Hc as [Hc|Hc]; [left; now rewrite Hc|right].
    now apply Z.ltb_ge in Hc. }
  destruct (first_open_idx vms) as [i|] eqn:Hfo.
  - destruct (first_open_idx_some _ _ Hfo)
      as (n & v & Hn & Hi & Hopen & Hav & Hbefore).
    destruct (tiers_vm_lookup _ _ _ _ _ _ _ Hvms Hn)
      as (t & Ht & Hidx & Hlim & Ha & Hs).
    rewrite Hidx in Hi. subst i.
    rewrite (default_qty_of_first_open _ _ _ _ _ n v Hvms Hfo Hn).
    cbn [returned].
    exists oid, ev. split; [reflexivity|]. split; [exact Hf|].
    split; [exact (tiers_vm_from_length _ _ _ _ _ _ Hvms)|].
    split; [exact Hparsed|]. split; [lia|].
    exists n, t. rewrite <- Ha, Hs, Hopen.
    repeat split; try assumption; try lia.
    intros m t' Hm Ht'.
    destruct (tiers_vm_found _ _ _ _ _ _ _ Hvms Ht') as [v' Hv'].
    exact (Hclosed m v' t' Hv' Ht' (Hbefore m v' Hm Hv')).
  - unfold default_qty_max. rewrite Hfo. cbn [returned].
    exists oid, ev. split; [reflexivity|]. split; [exact Hf|].
    split; [exact (tiers_vm_from_length _ _ _ _ _ _ Hvms)|].
    split; [exact Hparsed|]. split; [lia|].
    split; [reflexivity|]. intros n t Ht.
    destruct (tiers_vm_found _ _ _ _ _ _ _ Hvms Ht) as [v Hv].
    exact (Hclosed n v t Hv Ht (first_open_idx_none _ Hfo n v Hv)).
Qed.

Lemma int_to_float_small (d : Z) :
  1 <= d <= 5 -> exists f, int_to_float d = Some f.
Proof.
  intros H.
  assert (Hd : d = 1 \/ d = 2 \/ d = 3 \/ d = 4 \/ d = 5) by lia.
  destruct Hd as [->|[->|[->|[->| ->]]]]; vm_compute; eauto.
Qed.

(** The default quantity offered on the event page can be bought.  When
    the page preselects a tier whose per-order limit is not negative,
    posting that tier with the default quantity is forwarded by
    [buy_tickets], and [start] quotes exactly that quantity. *)
Theorem default_quantity_is_buyable event_id now db vms i qty_max v u :
  event_profile event_id now db = ProfileView vms (Some i) qty_max ->
  vms !! Z.to_nat i = Some v ->
  0 <= vm_per_order_limit v ->
  let form := {| a_event_id := event_id; a_tier_idx := Some i;
                 a_quantity := Some qty_max |} in
  buy_tickets (Some u) form now db = BuyForward form
  /\ quoted_quantity (start (Some u) form now db) = Some qty_max.
Proof.
  unfold event_profile, bind, some_or.
  destruct (_to_oid event_id) as [oid|] eqn:Ho; [|discriminate].
  destruct (find_published db oid) as [ev|] eqn:Hf; [|discriminate].
  destruct (tiers_vm db (oid_str oid) now (ev_tiers ev)) as [vms0|] eqn:Hvms;
    [|discriminate].
  destruct (default_qty_max vms0) as [d|] eqn:Hd; [|discriminate].
  cbn [returned]. intros [= <- Hfo <-] Hv Hlim. cbv zeta.
  destruct (first_open_idx_some _ _ Hfo)
    as (n & w & Hn & Hi & Hopen & Hav & _).
  destruct (tiers_vm_lookup _ _ _ _ _ _ _ Hvms Hn)
    as (t & Ht & Hidx & Hl & Ha & Hs).
  rewrite Hidx in Hi. subst i.
  rewrite Nat2Z.id in Hv. rewrite Hn in Hv. injection Hv as <-.
  rewrite (default_qty_of_first_open _ _ _ _ _ n w Hvms Hfo Hn) in Hd.
  injection Hd as <-.
  rewrite Hl, Ha in *. rewrite Hopen in Hs.
  set (avail := available (_tier_availability db (oid_str oid)
                             (Z.of_nat n) t)) in *.
  set (d := Z.max 1 (Z.min 5 (Z.min (if t_per_order_limit t =? 0 then avail
                                      else t_per_order_limit t) avail))).
  assert (Hb : in_bounds (Z.of_nat n) (ev_tiers ev) = true)
    by (eapply in_bounds_lookup, Ht).
  assert (Ht' : ev_tiers ev !! Z.to_nat (Z.of_nat n) = Some t)
    by now rewrite Nat2Z.id.
  assert (Hd1 : 1 <= d <= 5) by (unfold d; lia).
  assert (Hper : d <= (if t_per_order_limit t =? 0 then avail
                       else t_per_order_limit t)).
  { unfold d. case_eqb (t_per_order_limit t) 0; lia. }
  assert (Hda : d <= avail) by (unfold d; lia).
  split.
  - rewrite (buy_from_tier u
               {| a_event_id := event_id; a_tier_idx := Some (Z.of_nat n);
                  a_quantity := Some d |}
               now db (Z.of_nat n) d oid ev t
               eq_refl eq_refl Ho Hf Hb Ht').
    rewrite Hs. fold avail.
    assert (H1 : (d <=? 0) = false) by (apply Z.leb_gt; lia).
    assert (H2 : ((if t_per_order_limit t =? 0 then avail
                   else t_per_order_limit t) <? d) = false)
      by (apply Z.ltb_ge; lia).
    assert (H3 : (avail <? d) = false) by (apply Z.ltb_ge; lia).
    now rewrite H1, H2, H3.
  - rewrite (start_from_tier u
               {| a_event_id := event_id; a_tier_idx := Some (Z.of_nat n);
                  a_quantity := Some d |}
               now db (Z.of_nat n) d oid ev t
               eq_refl eq_refl Ho Hf Hb Ht').
    rewrite Hs. fold avail.
    assert (H1 : (avail <=? 0) = false) by (apply Z.leb_gt; lia).
    rewrite H1.
    assert (Hclamp : clamp_quantity d
                       (if 0 <? t_per_order_limit t then t_per_order_limit t
                        else avail) = d).
    { apply clamp_quantity_range; revert Hper;
        case_eqb (t_per_order_limit t) 0; case_ltb 0 (t_per_order_limit t);
        lia. }
    rewrite Hclamp. unfold total_amount.
    destruct (int_to_float_small d Hd1) as [f ->]. reflexivity.
Qed.

Lemma default_quantity_is_buyable_witness :
  quoted_quantity
    (start (Some "u1")
       {| a_event_id := sample_event_id; a_tier_idx := Some 1;
          a_quantity := Some 2 |} sample_now
       (sample_db [closed_tier; sample_tier 10 3 2])) = Some 2.
Proof.
  assert (H0 : 0 <= 2) by discriminate.
  exact (proj2 (default_quantity_is_buyable sample_event_id sample_now
                  (sample_db [closed_tier; sample_tier 10 3 2])
                  [{| vm_idx := 0; vm_price := 10; vm_per_order_limit := 0;
                      vm_available := 3; vm_supply := 3; vm_sold := 0;
                      vm_sales_open := false |};
                   {| vm_idx := 1; vm_price := 10; vm_per_order_limit := 2;
                      vm_available := 3; vm_supply := 3; vm_sold := 0;
                      vm_sales_open := true |}]
                  1 2
                  {| vm_idx := 1; vm_price := 10; vm_per_order_limit := 2;
                     vm_available := 3; vm_supply := 3; vm_sold := 0;
                     vm_sales_open := true |}
                  "u1" eq_refl eq_refl H0)).
Defined.

(** ** The page numbers of the event list *)

(** The window of page numbers.  For a current page between 1 and the
    number of pages and a width of at least 1, the window is a run of
    consecutive page numbers, as long as the width allows (the width, or
    all pages when there are fewer); it stays within 1 and the number of
    pages, and it contains the current page. *)
Theorem page_window_shows_current (page pages width : Z) :
  1 <= page <= pages ->
  1 <= width ->
  exists s,
    _page_window page pages width = seqZ s (Z.min pages width)
    /\ 1 <= s
    /\ s + Z.min pages width - 1 <= pages
    /\ s <= page < s + Z.min pages width.
Proof.
  intros Hp Hw. unfold _page_window.
  case_eq (pages <=? width); intros Hcmp.
  - apply Z.leb_le in Hcmp. exists 1.
    replace (Z.min pages width) with pages by lia.
    repeat split; try lia.
  - apply Z.leb_gt in Hcmp.
    assert (Hhalf : 0 <= width / 2 <= width - 1).
    { split; [apply Z.div_pos; lia|].
      pose proof (Z.mul_div_le width 2 ltac:(lia)).
      pose proof (Z.div_pos width 2 ltac:(lia) ltac:(lia)). lia. }
    cbv zeta.
    set (half := width / 2) in *.
    set (start0 := Z.max 1 (page - half)).
    set (end_ := Z.min pages (start0 + width - 1)).
    exists (Z.max 1 (end_ - width + 1)).
    replace (Z.min pages width) with width by lia.
    assert (H0 : 1 <= start0 <= page) by (unfold start0; lia).
    assert (H0' : page - half <= start0) by (unfold start0; lia).
    assert (He : width <= end_ <= pages) by (unfold end_; lia).
    assert (He' : page <= end_ <= start0 + width - 1) by (unfold end_; lia).
    repeat split; try lia. f_equal. lia.
Qed.

Lemma page_window_shows_current_witness :
  exists s,
    _page_window 19 20 7 = seqZ s (Z.min 20 7)
    /\ 1 <= s
    /\ s + Z.min 20 7 - 1 <= 20
    /\ s <= 19 < s + Z.min 20 7.
Proof.
  apply (page_window_shows_current 19 20 7); lia.
Defined.
